(** * Deer-harvest scrapers: a shallow embedding and its properties

    The repository holds two scripts.
    - [scrape_deer_harvest.py] (module [Summary] below): one aggregated record
      per captioned table of a single page.
    - [scrape_deer_harvest_all_years.py] (module [AllYears] below): one record
      per table row (harvest method), with the unit taken from the table
      caption or from the preceding h3/h4 heading.

    The HTML parser is a library; the model starts from what its queries
    return: [find_all] gives the elements in document order, [find] the
    first caption of a table, and every element carries the strings that
    [get_text] joins.

    Text is a sequence of Unicode code points, with Python's own sets of
    white space. Two things are ASCII only: decimal digits (a non-ASCII digit
    is no digit here) and [lower], which leaves non-ASCII letters alone. The
    scripts only compare lower-cased text with the ASCII words method,
    totals, total, archery, n/a and modern firearms, and no non-ASCII
    character lower-cases into a text that could take part in such a match,
    so these comparisons come out as in Python. *)

From Stdlib Require Import ZArith NArith Ascii String List Lia Bool SpecFloat.
From Stdlib Require DecimalPos Sorted.
Import Sorted.
From stdpp Require Import base option list gmap.
Import ListNotations.

Local Open Scope Z_scope.

(** ** Python text *)

Definition char := N.
Definition str := list N.

(** An ASCII literal as Python text. *)
Definition py (s : string) : str := map N_of_ascii (list_ascii_of_string s).

Definition chr (a : ascii) : char := N_of_ascii a.

Definition str_eqb (a b : str) : bool := bool_decide (a = b).

(** [str.isspace] of one code point (the set used by [strip], [int] and [\s]). *)
Definition is_space (c : char) : bool :=
  ((9 <=? c) && (c <=? 13) || (28 <=? c) && (c <=? 32)
   || (c =? 133) || (c =? 160) || (c =? 5760)
   || (8192 <=? c) && (c <=? 8202)
   || (c =? 8232) || (c =? 8233) || (c =? 8239) || (c =? 8287)
   || (c =? 12288))%N.

(** ASCII decimal digits. *)
Definition is_digit (c : char) : bool := ((48 <=? c) && (c <=? 57))%N.

Definition digit_val (c : char) : option Z :=
  if is_digit c then Some (Z.of_N (c - 48)) else None.

Definition lower_char (c : char) : char :=
  if ((65 <=? c) && (c <=? 90))%N then (c + 32)%N else c.

(** [s.lower()] *)
Definition lower (s : str) : str := map lower_char s.

Fixpoint skip_while (f : char -> bool) (s : str) : str :=
  match s with
  | c :: s' => if f c then skip_while f s' else s
  | [] => []
  end.

(** [s] without the characters of class [f] at both ends. *)
Definition strip_class (f : char -> bool) (s : str) : str :=
  rev (skip_while f (rev (skip_while f s))).

Definition lstrip (s : str) : str := skip_while is_space s.

(** [s.strip()] *)
Definition strip (s : str) : str := strip_class is_space s.

(** [s.replace(',', '')] *)
Definition remove_commas (s : str) : str :=
  filter (fun c => c ≠ chr ",") s.

Fixpoint starts_with (p s : str) : bool :=
  match p, s with
  | [], _ => true
  | _ :: _, [] => false
  | a :: p', b :: s' => (a =? b)%N && starts_with p' s'
  end.

(** [needle in hay] *)
Fixpoint str_in (needle hay : str) : bool :=
  starts_with needle hay ||
  match hay with
  | [] => false
  | _ :: hay' => str_in needle hay'
  end.

(** Truth value of a string: the empty string is false. *)
Definition truthy (s : str) : bool :=
  match s with [] => false | _ => true end.

(** [x or ''] for an optional string. *)
Definition or_empty (x : option str) : str :=
  match x with
  | Some s => if truthy s then s else []
  | None => []
  end.

(** ** Exceptions *)

Inductive exn := ValueError | ZeroDivisionError | OverflowError.

Inductive result (A : Type) :=
| Ok (a : A)
| Raise (e : exn).
Arguments Ok {A} a.
Arguments Raise {A} e.

(** Sequencing: an exception skips the rest ([x ← m; k]). *)
#[global] Instance result_ret : MRet result := fun A a => Ok a.
#[global] Instance result_bind : MBind result := fun A B k m =>
  match m with
  | Ok a => k a
  | Raise e => Raise e
  end.

(** ** Integers from and to text *)

(** The digits of an [int] literal: groups of digits separated by single
    underscores. [seen] tells whether the previous character was a digit. *)
Fixpoint int_digits (acc : Z) (seen : bool) (s : str) : option Z :=
  match s with
  | [] => if seen then Some acc else None
  | c :: s' =>
      if (c =? chr "_")%N then
        if seen then int_digits acc false s' else None
      else
        match digit_val c with
        | Some d => int_digits (10 * acc + d) true s'
        | None => None
        end
  end.

(** The white space [int] skips: the separators U+001C to U+001F are
    white space for [strip] but not here. *)
Definition is_int_space (c : char) : bool :=
  is_space c && negb ((28 <=? c) && (c <=? 31))%N.

(** [int(s)] on text, base ten: surrounding white space, an optional sign,
    then the digits. The interpreter's optional cap on the length of a
    literal is not modelled. *)
Definition int_of_str (s : str) : result Z :=
  let s := strip_class is_int_space s in
  let '(neg, body) :=
    match s with
    | c :: r =>
        if (c =? chr "-")%N then (true, r)
        else if (c =? chr "+")%N then (false, r)
        else (false, s)
    | [] => (false, [])
    end in
  match int_digits 0 false body with
  | Some n => Ok (if neg then - n else n)
  | None => Raise ValueError
  end.

Fixpoint uint_digits (u : Decimal.uint) : str :=
  match u with
  | Decimal.Nil => []
  | Decimal.D0 u => chr "0" :: uint_digits u
  | Decimal.D1 u => chr "1" :: uint_digits u
  | Decimal.D2 u => chr "2" :: uint_digits u
  | Decimal.D3 u => chr "3" :: uint_digits u
  | Decimal.D4 u => chr "4" :: uint_digits u
  | Decimal.D5 u => chr "5" :: uint_digits u
  | Decimal.D6 u => chr "6" :: uint_digits u
  | Decimal.D7 u => chr "7" :: uint_digits u
  | Decimal.D8 u => chr "8" :: uint_digits u
  | Decimal.D9 u => chr "9" :: uint_digits u
  end.

(** [str(n)] *)
Definition str_of_int (n : Z) : str :=
  match n with
  | Z0 => py "0"
  | Zpos p => uint_digits (Pos.to_uint p)
  | Zneg p => chr "-" :: uint_digits (Pos.to_uint p)
  end.

(** ** Cell cleaning, shared by both scripts *)

(** [clean_value] *)
Definition clean_value (val : str) : str :=
  let val := strip val in
  if str_eqb (lower val) (py "n/a") then [] else val.

(** [parse_int]: the [try] catches [ValueError] only. *)
Definition parse_int (val : str) : result Z :=
  let val := remove_commas (strip val) in
  if str_eqb (lower val) (py "n/a") || negb (truthy val) then Ok 0
  else
    match int_of_str val with
    | Ok n => Ok n
    | Raise ValueError => Ok 0
    | Raise e => Raise e
    end.

(** [normalize_method] *)
Definition normalize_method (method : str) : str :=
  if str_eqb (lower method) (py "modern firearms") then py "Modern Firearm"
  else method.

(** ** Floats

    Python's [float] is IEEE binary64; [SpecFloat] gives its values and
    correctly rounded operations. *)

Definition float := spec_float.

(** The float nearest to an integer; exact for the constant 100 used below. *)
Definition float_of_small_int (n : Z) : float := binary_normalize 53 1024 n 0 false.

(** [a / b] on two [int]s: the correctly rounded quotient, [ZeroDivisionError]
    for a zero divisor and [OverflowError] when the quotient rounds beyond the
    largest float. The operands enter the division as exact integers
    (mantissa [|a|], exponent 0), whatever their size, so the quotient is
    rounded once. *)
Definition int_true_div (a b : Z) : result float :=
  match a, b with
  | _, Z0 => Raise ZeroDivisionError
  | Z0, _ => Ok (S754_zero (b <? 0))
  | _, _ =>
      match SFdiv 53 1024 (S754_finite (a <? 0) (Z.to_pos (Z.abs a)) 0)
                          (S754_finite (b <? 0) (Z.to_pos (Z.abs b)) 0) with
      | S754_infinity _ => Raise OverflowError
      | q => Ok q
      end
  end.

(** [x * 100] for a float [x]. *)
Definition float_mul_100 (x : float) : float :=
  SFmul 53 1024 x (float_of_small_int 100).

(** The integer nearest to [m * 2^e] for [m > 0], ties to the even one. *)
Definition round_half_even (m e : Z) : Z :=
  if 0 <=? e then m * 2 ^ e
  else
    let k := - e in
    let q := m / 2 ^ k in
    let r := m mod 2 ^ k in
    match 2 * r ?= 2 ^ k with
    | Lt => q
    | Gt => q + 1
    | Eq => if Z.even q then q else q + 1
    end.

(** [f"{x:.0f}"]: no decimals, the sign kept also when the digits are 0. *)
Definition format_f0 (x : float) : str :=
  match x with
  | S754_nan => py "nan"
  | S754_infinity s => if s then py "-inf" else py "inf"
  | S754_zero s => if s then py "-0" else py "0"
  | S754_finite s m e =>
      (if s then py "-" else []) ++ str_of_int (round_half_even (Zpos m) e)
  end.




(** ** Documents *)

(** [element.get_text(strip=True)]: every string below the element is
    stripped, and the results are joined with nothing between them. *)
Definition get_text (strings : list str) : str := concat (map strip strings).

Inductive heading := h2 | h3 | h4.

(** An element of [soup.find_all(['h2', 'h3', 'h4', 'table'])]. A heading
    carries its strings; a table carries the strings of its first caption
    ([table.find('caption')]), if it has one, and its rows
    ([table.find_all('tr')]), each the list of its cells
    ([row.find_all(['td', 'th'])]), each cell the list of its strings. *)
Inductive element :=
| Heading (level : heading) (strings : list str)
| Table (caption : option (list str)) (rows : list (list (list str))).

(** The headings and tables of a page in document order. The position of an
    element in this list stands for [id(element)]. *)
Definition document := list element.

(** [cell_texts[i]], read only after the row was found to have 13 cells. *)
Definition cell (cell_texts : list str) (i : nat) : str := default [] (cell_texts !! i).

(** *** Regular expressions *)

(** A pattern letter under [re.IGNORECASE]: both cases, and the few
    non-ASCII letters whose case folding is an ASCII letter. *)
Definition ignorecase_eq (p c : char) : bool :=
  ((lower_char c =? p)
   || (p =? chr "i") && ((c =? 304) || (c =? 305))
   || (p =? chr "s") && (c =? 383)
   || (p =? chr "k") && (c =? 8490))%N.

Fixpoint starts_with_ignorecase (p s : str) : bool :=
  match p, s with
  | [], _ => true
  | _ :: _, [] => false
  | a :: p', b :: s' => ignorecase_eq a b && starts_with_ignorecase p' s'
  end.

Fixpoint take_while (f : char -> bool) (s : str) : str :=
  match s with
  | c :: s' => if f c then c :: take_while f s' else []
  | [] => []
  end.

(** [District\s*(\d+)] tried at the start of [s]; the result is group 1. *)
Definition district_at (s : str) : option str :=
  if starts_with_ignorecase (py "district") s then
    let digits := take_while is_digit (lstrip (drop 8 s)) in
    if truthy digits then Some digits else None
  else None.

(** [re.search(r'District\s*(\d+)', text, re.IGNORECASE)]: the leftmost
    position where the pattern matches. *)
Fixpoint district_search (s : str) : option str :=
  match district_at s with
  | Some d => Some d
  | None =>
      match s with
      | [] => None
      | _ :: s' => district_search s'
      end
  end.

Definition is_dash (c : char) : bool := ((c =? chr "-") || (c =? 8211))%N.

(** [.] matches everything but a line feed. *)
Definition is_dot (c : char) : bool := negb (c =? 10)%N.

(** [(.+)] at the start of [s]. *)
Definition dot_plus (s : str) : option str :=
  let g := take_while is_dot s in
  if truthy g then Some g else None.

(** [\s*(.+)]: the white space is taken greedily and given back one
    character at a time while [(.+)] finds nothing to match. *)
Fixpoint spaces_dot_plus (s : str) : option str :=
  match s with
  | c :: s' =>
      if is_space c then
        match spaces_dot_plus s' with
        | Some g => Some g
        | None => dot_plus s
        end
      else dot_plus s
  | [] => None
  end.

(** [re.match(r'(\d{3})\s*[-–]\s*(.+)', text)]: groups 1 and 2. *)
Definition gmu_match (s : str) : option (str * str) :=
  match s with
  | a :: b :: c :: rest =>
      if is_digit a && is_digit b && is_digit c then
        match lstrip rest with
        | d :: rest' =>
            if is_dash d then
              match spaces_dot_plus rest' with
              | Some g => Some ([a; b; c], g)
              | None => None
              end
            else None
        | [] => None
        end
      else None
  | _ => None
  end.

(** The unit of a caption or heading text: [(group(1), group(2).strip())]. *)
Definition gmu_of_text (text : str) : option (str * str) :=
  match gmu_match text with
  | Some (g1, g2) => Some (g1, strip g2)
  | None => None
  end.

(** *** Records *)

Inductive value := Int (n : Z) | Str (s : str).

(** A [dict] with string keys, in insertion order. *)
Definition dict := list (string * value).

Definition dict_get (d : dict) (k : string) : option value :=
  match List.find (fun kv => String.eqb (fst kv) k) d with
  | Some kv => Some (snd kv)
  | None => None
  end.

(** A text-valued entry. *)
Definition field (k : string) (v : str) : string * value := (k, Str v).
Arguments field k%_string v.

Definition dict_truthy (d : dict) : bool :=
  match d with [] => false | _ => true end.

(** ** scrape_deer_harvest.py: one summary record per unit *)

Module Summary.

(** [archery_data] *)
Record archery := {
  harvest : str;
  hunters : str;
  success_rate : str;
  days_per_kill : str;
}.

(** The variables of the row loop of [parse_gmu_table]. *)
Record scan := {
  archery_data : option archery;
  total_harvest : Z;
  total_hunters : Z;
  total_hunter_days : Z;
}.

Definition scan_init : scan :=
  {| archery_data := None; total_harvest := 0; total_hunters := 0;
     total_hunter_days := 0 |}.

(** One turn of [for row in rows]. *)
Definition scan_row (st : scan) (cells : list (list str)) : result scan :=
  if (length cells <? 13)%nat then Ok st
  else
    let cell_texts := map get_text cells in
    let method := lower (cell cell_texts 0) in
    if str_in (py "method") method then Ok st
    else
      let archery_data' :=
        if str_in (py "archery") method then
          Some {| harvest := clean_value (cell cell_texts 3);
                  hunters := clean_value (cell cell_texts 9);
                  success_rate := clean_value (cell cell_texts 10);
                  days_per_kill := clean_value (cell cell_texts 12) |}
        else archery_data st in
      if str_in (py "total") method then
        th ← parse_int (cell cell_texts 3);
        Ok {| archery_data := archery_data';
              total_harvest := th;
              total_hunters := total_hunters st;
              total_hunter_days := total_hunter_days st |}
      else
        hunters ← parse_int (cell cell_texts 9);
        hunter_days ← parse_int (cell cell_texts 11);
        Ok {| archery_data := archery_data';
              total_harvest := total_harvest st;
              total_hunters := total_hunters st + hunters;
              total_hunter_days := total_hunter_days st + hunter_days |}.

Fixpoint scan_rows (st : scan) (rows : list (list (list str))) : result scan :=
  match rows with
  | [] => Ok st
  | row :: rows' => st' ← scan_row st row; scan_rows st' rows'
  end.

(** The two derived fields, [(overall_success_rate, overall_days_per_kill)]. *)
Definition overall_stats (st : scan) : result (str * str) :=
  if (0 <? total_harvest st) && (0 <? total_hunters st) then
    q ← int_true_div (total_harvest st) (total_hunters st);
    let overall_success_rate := format_f0 (float_mul_100 q) ++ py "%" in
    overall_days_per_kill ←
      (if 0 <? total_harvest st then
         d ← int_true_div (total_hunter_days st) (total_harvest st);
         Ok (format_f0 d)
       else Ok []);
    Ok (overall_success_rate, overall_days_per_kill)
  else Ok ([], []).

Definition archery_field (a : option archery) (f : archery -> str) : str :=
  match a with
  | Some d => f d
  | None => []
  end.

(** The dict that [parse_gmu_table] returns. *)
Definition gmu_record (district : option str) (gmu_number gmu_name : str)
    (st : scan) (overall_success_rate overall_days_per_kill : str) : dict :=
  [ field "district" (or_empty district);
    field "gmu_number" gmu_number;
    field "gmu_name" gmu_name;
    field "archery_hunters" (archery_field (archery_data st) hunters);
    field "archery_harvest" (archery_field (archery_data st) harvest);
    field "archery_success_rate" (archery_field (archery_data st) success_rate);
    field "archery_hunter_days_per_kill" (archery_field (archery_data st) days_per_kill);
    field "total_hunters" (if 0 <? total_hunters st then str_of_int (total_hunters st) else []);
    field "total_harvest" (if 0 <? total_harvest st then str_of_int (total_harvest st) else []);
    field "overall_success_rate" overall_success_rate;
    field "overall_hunter_days_per_kill" overall_days_per_kill ].

(** [parse_gmu_table] *)
Definition parse_gmu_table (rows : list (list (list str)))
    (district : option str) (gmu_number gmu_name : str) : result dict :=
  st ← scan_rows scan_init rows;
  '(overall_success_rate, overall_days_per_kill) ← overall_stats st;
  Ok (gmu_record district gmu_number gmu_name st
        overall_success_rate overall_days_per_kill).

(** [fieldnames] of [write_csv] *)
Definition fieldnames : list string :=
  [ "district"; "gmu_number"; "gmu_name"; "archery_hunters"; "archery_harvest";
    "archery_success_rate"; "archery_hunter_days_per_kill"; "total_hunters";
    "total_harvest"; "overall_success_rate"; "overall_hunter_days_per_kill" ]%string.

(** The first loop of [scrape_deer_harvest]: [(district_map, current_district)]
    after the elements from position [i] on. Only h2 and table elements are
    visited. *)
Fixpoint walk (i : nat) (doc : document)
    (district_map : gmap nat (option str)) (current_district : option str)
    : gmap nat (option str) * option str :=
  match doc with
  | [] => (district_map, current_district)
  | Heading h2 strings :: doc' =>
      let text := get_text strings in
      match district_search text with
      | Some d => walk (S i) doc' district_map (Some d)
      | None => walk (S i) doc' district_map current_district
      end
  | Heading _ _ :: doc' => walk (S i) doc' district_map current_district
  | Table _ _ :: doc' =>
      walk (S i) doc' (<[i := current_district]> district_map) current_district
  end.

(** What one turn of [for table in tables] adds to [results]. *)
Definition table_records (district_map : gmap nat (option str))
    (i : nat) (e : element) : result (list dict) :=
  match e with
  | Heading _ _ => Ok []
  | Table None _ => Ok []
  | Table (Some caption) rows =>
      let caption_text := get_text caption in
      match gmu_match caption_text with
      | None => Ok []
      | Some (g1, g2) =>
          let gmu_number := g1 in
          let gmu_name := strip g2 in
          let district := default (Some []) (district_map !! i) in
          gmu_data ← parse_gmu_table rows district gmu_number gmu_name;
          Ok (if dict_truthy gmu_data then [gmu_data] else [])
      end
  end.

Fixpoint tables_loop (district_map : gmap nat (option str))
    (i : nat) (doc : document) : result (list dict) :=
  match doc with
  | [] => Ok []
  | e :: doc' =>
      rs ← table_records district_map i e;
      rest ← tables_loop district_map (S i) doc';
      Ok (rs ++ rest)
  end.

(** [scrape_deer_harvest], from the parsed page on. *)
Definition scrape_deer_harvest (doc : document) : result (list dict) :=
  let '(district_map, _) := walk 0 doc ∅ None in
  tables_loop district_map 0 doc.

End Summary.

(** ** scrape_deer_harvest_all_years.py: one record per unit and method *)

Module AllYears.

(** The variables of the first loop of [scrape_year]. *)
Record walk_state := {
  district_map : gmap nat (option str);
  gmu_map : gmap nat (str * str);
  current_district : option str;
  current_gmu : option str;
  current_gmu_name : option str;
}.

Definition walk_init : walk_state :=
  {| district_map := ∅; gmu_map := ∅; current_district := None;
     current_gmu := None; current_gmu_name := None |}.

(** One turn of the first loop, on the element at position [i]. *)
Definition walk_step (i : nat) (e : element) (w : walk_state) : walk_state :=
  match e with
  | Heading h2 strings =>
      let text := get_text strings in
      match district_search text with
      | Some d =>
          {| district_map := district_map w; gmu_map := gmu_map w;
             current_district := Some d;
             current_gmu := None; current_gmu_name := None |}
      | None => w
      end
  | Heading _ strings =>
      let text := get_text strings in
      match gmu_match text with
      | Some (g1, g2) =>
          {| district_map := district_map w; gmu_map := gmu_map w;
             current_district := current_district w;
             current_gmu := Some g1; current_gmu_name := Some (strip g2) |}
      | None => w
      end
  | Table caption _ =>
      let district_map' := <[i := current_district w]> (district_map w) in
      let gmu_map' :=
        match caption with
        | Some strings =>
            let caption_text := get_text strings in
            match gmu_match caption_text with
            | Some (g1, g2) => <[i := (g1, strip g2)]> (gmu_map w)
            | None => gmu_map w
            end
        | None =>
            match current_gmu w with
            | Some g =>
                if truthy g then
                  <[i := (g, or_empty (current_gmu_name w))]> (gmu_map w)
                else gmu_map w
            | None => gmu_map w
            end
        end in
      {| district_map := district_map'; gmu_map := gmu_map';
         current_district := current_district w;
         current_gmu := current_gmu w; current_gmu_name := current_gmu_name w |}
  end.

Fixpoint walk (i : nat) (doc : document) (w : walk_state) : walk_state :=
  match doc with
  | [] => w
  | e :: doc' => walk (S i) doc' (walk_step i e w)
  end.

(** The dict appended for a method row. *)
Definition method_record (year : Z) (district : option str)
    (gmu_number gmu_name : str) (cell_texts : list str) : dict :=
  [ ("year"%string, Int year);
    field "district" (or_empty district);
    field "gmu_number" gmu_number;
    field "gmu_name" gmu_name;
    field "method" (normalize_method (cell cell_texts 0));
    field "antlerless_harvest" (clean_value (cell cell_texts 1));
    field "antlered_harvest" (clean_value (cell cell_texts 2));
    field "total_harvest" (clean_value (cell cell_texts 3));
    field "points_1" (clean_value (cell cell_texts 4));
    field "points_2" (clean_value (cell cell_texts 5));
    field "points_3" (clean_value (cell cell_texts 6));
    field "points_4" (clean_value (cell cell_texts 7));
    field "points_5_plus" (clean_value (cell cell_texts 8));
    field "num_hunters" (clean_value (cell cell_texts 9));
    field "hunter_success_rate" (clean_value (cell cell_texts 10));
    field "hunter_days" (clean_value (cell cell_texts 11));
    field "days_per_kill" (clean_value (cell cell_texts 12)) ].

(** What one row adds to the [results] of [parse_gmu_table]. *)
Definition row_records (year : Z) (district : option str)
    (gmu_number gmu_name : str) (cells : list (list str)) : list dict :=
  if (length cells <? 13)%nat then []
  else
    let cell_texts := map get_text cells in
    let method := cell cell_texts 0 in
    if str_eqb (lower method) (py "method") then []
    else if str_eqb (lower method) (py "totals") then []
    else [ method_record year district gmu_number gmu_name cell_texts ].

(** [fieldnames] of [write_csv] *)
Definition fieldnames : list string :=
  [ "year"; "district"; "gmu_number"; "gmu_name"; "method";
    "antlerless_harvest"; "antlered_harvest"; "total_harvest";
    "points_1"; "points_2"; "points_3"; "points_4"; "points_5_plus";
    "num_hunters"; "hunter_success_rate"; "hunter_days"; "days_per_kill" ]%string.

(** [parse_gmu_table] *)
Definition parse_gmu_table (rows : list (list (list str))) (year : Z)
    (district : option str) (gmu_number gmu_name : str) : list dict :=
  flat_map (row_records year district gmu_number gmu_name) rows.

(** What one turn of [for table in tables] adds to [results]. *)
Definition table_records (year : Z) (w : walk_state) (i : nat) (e : element)
    : list dict :=
  match e with
  | Heading _ _ => []
  | Table _ rows =>
      match gmu_map w !! i with
      | None => []
      | Some (gmu_number, gmu_name) =>
          let district := default (Some []) (district_map w !! i) in
          parse_gmu_table rows year district gmu_number gmu_name
      end
  end.

Fixpoint tables_loop (year : Z) (w : walk_state) (i : nat) (doc : document)
    : list dict :=
  match doc with
  | [] => []
  | e :: doc' => table_records year w i e ++ tables_loop year w (S i) doc'
  end.

(** [scrape_year], from the parsed page on. *)
Definition scrape_year (year : Z) (doc : document) : list dict :=
  tables_loop year (walk 0 doc walk_init) 0 doc.

(** The unit a table was given, if any: its entry in [gmu_map]. *)
Definition resolved_unit (doc : document) (i : nat) : option (str * str) :=
  gmu_map (walk 0 doc walk_init) !! i.

End AllYears.

(** ** Vocabulary of the statements *)

(** The integer [parse_int] returns. *)
Definition parse_int_value (val : str) : Z :=
  match parse_int val with
  | Ok n => n
  | Raise _ => 0
  end.

(** The lower-cased text of the first cell of a row of at least 13 cells. *)
Definition first_cell_lower (cells : list (list str)) : str :=
  lower (cell (map get_text cells) 0).

(** Text of cell [i] of a row. *)
Definition cell_text (cells : list (list str)) (i : nat) : str :=
  cell (map get_text cells) i.

(** An h3 or h4 heading whose text has the form of a unit label. *)
Definition is_unit_heading (e : element) : bool :=
  match e with
  | Heading h3 strings | Heading h4 strings =>
      bool_decide (gmu_match (get_text strings) ≠ None)
  | _ => false
  end.

(** A row given by the text of its cells, one string per cell. *)
Definition cells_of (texts : list string) : list (list str) :=
  map (fun t => [py t]) texts.







(** A sample table: header, two method rows, totals. *)
Definition sample_rows : list (list (list str)) :=
  [ cells_of ["Method"; "Antlerless"; "Antlered"; "Total"; "1 Point"; "2 Point";
              "3 Point"; "4 Point"; "5+ Point"; "Hunters"; "Success"; "Days";
              "Days/Kill"]%string;
    cells_of ["Archery"; "3"; "7"; "10"; "1"; "2"; "3"; "1"; "0";
              "80"; "12.5%"; "400"; "40"]%string;
    cells_of ["Modern Firearms"; "10"; "30"; "40"; "1"; "2"; "3"; "1"; "0";
              "120"; "33%"; "600"; "15"]%string;
    cells_of ["Totals"; "13"; "37"; "50"; "1"; "2"; "3"; "1"; "0";
              "200"; "25%"; "1,000"; "20"]%string ].

Definition sample_scan : Summary.scan :=
  {| Summary.archery_data :=
       Some {| Summary.harvest := py "10"; Summary.hunters := py "80";
               Summary.success_rate := py "12.5%";
               Summary.days_per_kill := py "40" |};
     Summary.total_harvest := 50;
     Summary.total_hunters := 200;
     Summary.total_hunter_days := 1000 |}.


(** The archery sub-record after a row that is not a header row. *)
Definition archery_after (st : Summary.scan) (cells : list (list str))
    : option Summary.archery :=
  if str_in (py "archery") (first_cell_lower cells) then
    Some {| Summary.harvest := clean_value (cell_text cells 3);
            Summary.hunters := clean_value (cell_text cells 9);
            Summary.success_rate := clean_value (cell_text cells 10);
            Summary.days_per_kill := clean_value (cell_text cells 12) |}
  else Summary.archery_data st.

(** The row taken as the totals row: column 3 becomes [total_harvest], the
    hunters and hunter-days totals stay. *)
Definition seeded (st : Summary.scan) (cells : list (list str)) : Summary.scan :=
  {| Summary.archery_data := archery_after st cells;
     Summary.total_harvest := parse_int_value (cell_text cells 3);
     Summary.total_hunters := Summary.total_hunters st;
     Summary.total_hunter_days := Summary.total_hunter_days st |}.

(** The row taken as a method row: columns 9 and 11 are added to the hunters
    and hunter-days totals, [total_harvest] stays. *)
Definition accumulated (st : Summary.scan) (cells : list (list str)) : Summary.scan :=
  {| Summary.archery_data := archery_after st cells;
     Summary.total_harvest := Summary.total_harvest st;
     Summary.total_hunters :=
       Summary.total_hunters st + parse_int_value (cell_text cells 9);
     Summary.total_hunter_days :=
       Summary.total_hunter_days st + parse_int_value (cell_text cells 11) |}.

(** * Vocabulary of the further properties *)


(** ** More vocabulary *)

(** No character of class [f] at either end of [s]. *)
Definition edges_clear (f : char -> bool) (s : str) : bool :=
  negb (from_option f false (head s)) && negb (from_option f false (last s)).


(** An h2 heading whose text names a district. *)
Definition is_district_heading (e : element) : bool :=
  match e with
  | Heading h2 strings => bool_decide (district_search (get_text strings) ≠ None)
  | _ => false
  end.



(** A row of at least 13 cells. *)
Definition long_row (cells : list (list str)) : bool :=
  (13 <=? length cells)%nat.

(** The rows the method-level script turns into records. *)
Definition is_data_row (cells : list (list str)) : bool :=
  long_row cells
  && negb (str_eqb (first_cell_lower cells) (py "method"))
  && negb (str_eqb (first_cell_lower cells) (py "totals")).

(** The rows of the summary scan that are no header row. *)
Definition is_scanned_row (cells : list (list str)) : bool :=
  long_row cells && negb (str_in (py "method") (first_cell_lower cells)).

(** The kinds of scanned rows of the summary script. *)
Definition is_summary_totals (cells : list (list str)) : bool :=
  is_scanned_row cells && str_in (py "total") (first_cell_lower cells).

Definition is_summary_method (cells : list (list str)) : bool :=
  is_scanned_row cells && negb (str_in (py "total") (first_cell_lower cells)).

Definition is_summary_archery (cells : list (list str)) : bool :=
  is_scanned_row cells && str_in (py "archery") (first_cell_lower cells).

(** The archery sub-record of a row. *)
Definition archery_of (cells : list (list str)) : Summary.archery :=
  {| Summary.harvest := clean_value (cell_text cells 3);
     Summary.hunters := clean_value (cell_text cells 9);
     Summary.success_rate := clean_value (cell_text cells 10);
     Summary.days_per_kill := clean_value (cell_text cells 12) |}.

(** The sum of the integers of column [i] over [rows]. *)
Definition sum_column (i : nat) (rows : list (list (list str))) : Z :=
  fold_right (fun cells acc => parse_int_value (cell_text cells i) + acc) 0 rows.


(** What every method record satisfies: the keys of the schema in its
    order, the year of the page, and a method that is none of the texts the
    script filters or rewrites. *)
Definition method_record_ok (year : Z) (r : dict) : Prop :=
  map fst r = AllYears.fieldnames /\
  dict_get r "year" = Some (Int year) /\
  exists m, dict_get r "method" = Some (Str m) /\
            lower m <> py "method" /\ lower m <> py "totals" /\
            lower m <> py "modern firearms".


(** ** Writing the file *)

(** The text [csv.writer] writes for a value: [str] of a number, a string
    as it is. A missing district is held as the empty text by the records,
    which is also what the writer makes of [None]. *)
Definition csv_text (v : value) : str :=
  match v with
  | Int n => str_of_int n
  | Str s => s
  end.

Definition quote_char : char := 34%N.

(** The characters that make the writer quote a field: the delimiter, the
    quote character, and the characters of the line terminator. *)
Definition csv_special (c : char) : bool :=
  ((c =? chr ",") || (c =? quote_char) || (c =? 13) || (c =? 10))%N.

(** Quote characters are doubled inside a quoted field. *)
Definition csv_escape (s : str) : str :=
  flat_map (fun c => if (c =? quote_char)%N then [quote_char; quote_char] else [c]) s.

(** One field under [QUOTE_MINIMAL]. *)
Definition csv_field (s : str) : str :=
  if existsb csv_special s then quote_char :: csv_escape s ++ [quote_char]
  else s.

Fixpoint csv_join (fields : list str) : str :=
  match fields with
  | [] => []
  | [f] => f
  | f :: rest => f ++ chr "," :: csv_join rest
  end.

(** [writer.writerow(fields)]: a row made of one empty field is written as
    an empty quoted field; every row ends with carriage return, line feed. *)
Definition csv_line (fields : list str) : str :=
  match fields with
  | [ [] ] => [quote_char; quote_char; 13; 10]%N
  | _ => csv_join (map csv_field fields) ++ [13; 10]%N
  end.

(** The texts of a row in the order of [fieldnames]; a missing key gives
    the empty text ([rowdict.get(key, restval)]). *)
Definition row_texts (fieldnames : list string) (rowdict : dict) : list str :=
  map (fun k => from_option csv_text [] (dict_get rowdict k)) fieldnames.

(** [DictWriter._dict_to_list]: a key outside [fieldnames] raises
    [ValueError]. *)
Definition dict_to_list (fieldnames : list string) (rowdict : dict)
    : result (list str) :=
  if forallb (fun k => existsb (String.eqb k) fieldnames) (map fst rowdict)
  then Ok (row_texts fieldnames rowdict)
  else Raise ValueError.

(** [writer.writerows(data)] *)
Fixpoint writerows (fieldnames : list string) (data : list dict) : result str :=
  match data with
  | [] => Ok []
  | rowdict :: data' =>
      fields ← dict_to_list fieldnames rowdict;
      rest ← writerows fieldnames data';
      Ok (csv_line fields ++ rest)
  end.

(** [writer.writeheader()] *)
Definition header_line (fieldnames : list string) : str :=
  csv_line (map py fieldnames).

(** The text [write_csv] hands to the file object, for the given
    [fieldnames]: the header line, then the rows. Its encoding by the file
    object is outside this model. *)
Definition write_csv_with (fieldnames : list string) (data : list dict)
    : result str :=
  rows ← writerows fieldnames data;
  Ok (header_line fieldnames ++ rows).

(** Truth value of a list: the empty list is false. *)
Definition dict_list_truthy (data : list dict) : bool :=
  match data with [] => false | _ => true end.

(** The year stamped on a record. *)
Definition year_of (r : dict) : option Z :=
  match dict_get r "year" with
  | Some (Int y) => Some y
  | _ => None
  end.

(** *** scrape_deer_harvest_all_years.py *)

Module AllYearsFile.

Definition write_csv (data : list dict) : result str :=
  write_csv_with AllYears.fieldnames data.

(** [range(start_year, end_year + 1)] *)
Definition years : list Z := map Z.of_nat (seq 2013 12).

(** [all_data] after the loop of [main] over the years [ys]. [pages] gives
    the parsed page of a year, or nothing when fetching it raised: the
    [try] keeps the loop going. *)
Definition all_data_of (pages : Z -> option document) (ys : list Z) : list dict :=
  flat_map (fun year =>
              match pages year with
              | Some doc => AllYears.scrape_year year doc
              | None => []
              end) ys.

Definition all_data (pages : Z -> option document) : list dict :=
  all_data_of pages years.

(** [main]: the text of the file, or nothing when no file is written. *)
Definition main (pages : Z -> option document) : result (option str) :=
  let data := all_data pages in
  if dict_list_truthy data then
    content ← write_csv data; Ok (Some content)
  else Ok None.

End AllYearsFile.

(** *** scrape_deer_harvest.py *)

Module SummaryFile.

Definition write_csv (data : list dict) : result str :=
  write_csv_with Summary.fieldnames data.

(** [main], from the parsed page on: the text of the file, or nothing when
    no file is written. *)
Definition main (page : document) : result (option str) :=
  data ← Summary.scrape_deer_harvest page;
  if dict_list_truthy data then
    content ← write_csv data; Ok (Some content)
  else Ok None.

End SummaryFile.

(** One of the two ways the writer writes a field: as [csv_field] does, or,
    for the empty field, as two quote characters. *)
Definition field_code (f code : str) : Prop :=
  code = csv_field f \/ (f = [] /\ code = [quote_char; quote_char]).

(** The pages with the page of year [y] failing. *)
Definition without_year (pages : Z -> option document) (y : Z)
    : Z -> option document :=
  fun year => if (year =? y) then None else pages year.

(** A character that ends a field: the delimiter or the carriage return. *)
Definition field_end (c : char) : Prop := c = chr "," \/ c = 13%N.

(** A record that fits the schema [fieldnames]: it has these keys in this
    order, and its line holds its values in the order of the record. *)
Definition in_schema (fieldnames : list string) (r : dict) : Prop :=
  map fst r = fieldnames /\
  row_texts fieldnames r = map (fun kv => csv_text (snd kv)) r.

(** The lines of the records, each with its values in order. *)
Definition record_lines (data : list dict) : str :=
  concat (map (fun r => csv_line (map (fun kv => csv_text (snd kv)) r)) data).

(** * Properties *)

(** ** Cell cleaning *)

Lemma str_eqb_true (a b : str) : str_eqb a b = true <-> a = b.
Proof. unfold str_eqb. apply bool_decide_eq_true. Qed.

Lemma str_eqb_false (a b : str) : str_eqb a b = false <-> a <> b.
Proof. unfold str_eqb. apply bool_decide_eq_false. Qed.

(** [int] raises nothing but [ValueError]. *)
Lemma int_of_str_cases (s : str) :
  (exists n, int_of_str s = Ok n) \/ int_of_str s = Raise ValueError.
Proof.
  unfold int_of_str.
  match goal with
  | |- context [let '(neg, body) := ?x in _] => destruct x as [neg body]
  end.
  destruct (int_digits 0 false body); eauto.
Qed.

Lemma parse_int_total (s : str) : exists n, parse_int s = Ok n.
Proof.
  unfold parse_int.
  destruct (str_eqb _ _ || negb _); [eauto|].
  destruct (int_of_str_cases (remove_commas (strip s))) as [[n ->] | ->]; eauto.
Qed.

Lemma parse_int_value_ok (s : str) : parse_int s = Ok (parse_int_value s).
Proof.
  unfold parse_int_value. destruct (parse_int_total s) as [n ->]. reflexivity.
Qed.

(** C7. [parse_int] returns an integer on every input and never raises: the
    cleaned text is the input stripped and without commas; it gives 0 when
    that text is n/a in any case or empty, the parsed integer when [int]
    accepts it, and 0 when [int] raises [ValueError]. So "1,234" gives 1234
    and "n/a", "N/A", the empty string and "abc" give 0. *)
Theorem C7_parse_int_total :
  (forall s, exists n, parse_int s = Ok n) /\
  (forall s, lower (remove_commas (strip s)) = py "n/a" -> parse_int s = Ok 0) /\
  (forall s, remove_commas (strip s) = [] -> parse_int s = Ok 0) /\
  (forall s, int_of_str (remove_commas (strip s)) = Raise ValueError ->
             parse_int s = Ok 0) /\
  (forall s n, lower (remove_commas (strip s)) <> py "n/a" ->
               remove_commas (strip s) <> [] ->
               int_of_str (remove_commas (strip s)) = Ok n ->
               parse_int s = Ok n) /\
  parse_int (py "1,234") = Ok 1234 /\
  parse_int (py "n/a") = Ok 0 /\
  parse_int (py "N/A") = Ok 0 /\
  parse_int [] = Ok 0 /\
  parse_int (py "abc") = Ok 0 /\
  parse_int (py " 2,500 ") = Ok 2500.
Proof.
  split; [exact parse_int_total|].
  split.
  { intros s H. unfold parse_int. rewrite H. reflexivity. }
  split.
  { intros s H. unfold parse_int. rewrite H. reflexivity. }
  split.
  { intros s H. unfold parse_int. rewrite H.
    destruct (str_eqb _ _ || negb _); reflexivity. }
  split.
  { intros s n Hna Hne H. unfold parse_int. rewrite H.
    apply str_eqb_false in Hna. rewrite Hna.
    destruct (remove_commas (strip s)); [contradiction|reflexivity]. }
  repeat split; vm_compute; reflexivity.
Qed.

(** ** Method names *)

(** C5, as the code has it. [normalize_method] compares the lower-cased
    label: every label that reads modern firearms in any mix of cases becomes
    "Modern Firearm", every other label is returned unchanged. So
    "Modern Firearms" gives "Modern Firearm" and "Archery" stays. *)
Theorem C5_normalize_method_ignores_case :
  (forall m, lower m = py "modern firearms" ->
             normalize_method m = py "Modern Firearm") /\
  (forall m, lower m <> py "modern firearms" -> normalize_method m = m) /\
  normalize_method (py "Modern Firearms") = py "Modern Firearm" /\
  normalize_method (py "Archery") = py "Archery".
Proof.
  split.
  { intros m H. unfold normalize_method.
    apply str_eqb_true in H. rewrite H. reflexivity. }
  split.
  { intros m H. unfold normalize_method.
    apply str_eqb_false in H. rewrite H. reflexivity. }
  split; vm_compute; reflexivity.
Qed.

(** C5 as stated fails: an input that differs from "Modern Firearms" in case
    only is rewritten too. *)
Lemma C5_counterexample_upper_case :
  py "MODERN FIREARMS" <> py "Modern Firearms" /\
  normalize_method (py "MODERN FIREARMS") = py "Modern Firearm" /\
  normalize_method (py "MODERN FIREARMS") <> py "MODERN FIREARMS".
Proof.
  split; [|split]; vm_compute; congruence.
Qed.

(** ** The context walk of scrape_deer_harvest_all_years.py *)

Section Walk.
Import AllYears.

Lemma walk_app (l1 l2 : document) k w :
  walk k (l1 ++ l2) w = walk (k + length l1) l2 (walk k l1 w).
Proof.
  revert k w. induction l1 as [|e l1 IH]; intros k w; simpl.
  - f_equal. lia.
  - rewrite IH. f_equal. lia.
Qed.

(** A turn of the loop writes no entry but the one of its own element. *)
Lemma walk_step_gmu_other i j e w :
  i <> j -> gmu_map (walk_step i e w) !! j = gmu_map w !! j.
Proof.
  intros Hij. destruct e as [[| |] strings | [caption|] rows]; simpl;
    repeat match goal with
    | |- context [match ?x with _ => _ end] => destruct x; simpl
    end;
    rewrite ?lookup_insert_ne by done; reflexivity.
Qed.

(** The loop over the elements at positions [k], [k+1], ... leaves the
    entries of all other positions alone. *)
Lemma walk_gmu_outside (doc : document) k w j :
  (j < k \/ k + length doc <= j)%nat ->
  gmu_map (walk k doc w) !! j = gmu_map w !! j.
Proof.
  revert k w. induction doc as [|e doc IH]; intros k w Hj; simpl; [done|].
  rewrite IH by (simpl in Hj; lia).
  apply walk_step_gmu_other. simpl in Hj. lia.
Qed.

(** The entry of position [j] is decided in the turn of the element there. *)
Lemma walk_gmu_at (doc : document) j e :
  doc !! j = Some e ->
  gmu_map (walk 0 doc walk_init) !! j =
  gmu_map (walk_step j e (walk 0 (take j doc) walk_init)) !! j.
Proof.
  intros Hj. pose proof (lookup_lt_Some _ _ _ Hj) as Hlen.
  rewrite <- (take_drop_middle doc j e Hj) at 1.
  rewrite walk_app. simpl.
  rewrite length_take, Nat.min_l by lia. simpl.
  apply walk_gmu_outside. lia.
Qed.

Lemma walk_init_prefix_fresh (doc : document) j :
  gmu_map (walk 0 (take j doc) walk_init) !! j = None.
Proof.
  rewrite walk_gmu_outside.
  - apply lookup_empty.
  - right. rewrite length_take. lia.
Qed.

(** Headings that are no unit label and tables leave [current_gmu] unset. *)
Lemma walk_keeps_gmu_unset (mid : document) k w :
  Forall (fun e => is_unit_heading e = false) mid ->
  current_gmu w = None ->
  current_gmu (walk k mid w) = None.
Proof.
  intros Hmid. revert k w.
  induction Hmid as [|e mid He _ IH]; intros k w Hw; simpl; [done|].
  apply IH.
  destruct e as [[| |] strings | caption rows]; simpl in *.
  - destruct (district_search _); done.
  - apply bool_decide_eq_false in He.
    destruct (gmu_match _) as [[g1 g2]|]; [|done].
    exfalso. apply He. intros ?. done.
  - apply bool_decide_eq_false in He.
    destruct (gmu_match _) as [[g1 g2]|]; [|done].
    exfalso. apply He. intros ?. done.
  - done.
Qed.

(** C1. In every document, a table whose caption text matches the unit
    pattern is given the unit parsed from that caption, whatever the
    headings before it have set: this holds for the turn of the walk on
    that table from any state, for the finished map, and the records of
    the table carry that unit. *)
Theorem C1_caption_unit_wins (doc : document) (i : nat)
    (caption : list str) (rows : list (list (list str))) (g : str * str) :
  doc !! i = Some (Table (Some caption) rows) ->
  gmu_of_text (get_text caption) = Some g ->
  (forall w, gmu_map (walk_step i (Table (Some caption) rows) w) !! i = Some g) /\
  resolved_unit doc i = Some g /\
  (forall year,
     table_records year (walk 0 doc walk_init) i (Table (Some caption) rows) =
     parse_gmu_table rows year
       (default (Some []) (district_map (walk 0 doc walk_init) !! i))
       (fst g) (snd g)).
Proof.
  intros Hi Hg. unfold gmu_of_text in Hg.
  destruct (gmu_match (get_text caption)) as [[g1 g2]|] eqn:Hm; [|done].
  injection Hg as <-.
  assert (Hstep : forall w,
    gmu_map (walk_step i (Table (Some caption) rows) w) !! i = Some (g1, strip g2)).
  { intros w. simpl. rewrite Hm. apply lookup_insert_eq. }
  assert (Hres : resolved_unit doc i = Some (g1, strip g2)).
  { unfold resolved_unit. rewrite (walk_gmu_at _ _ _ Hi). apply Hstep. }
  split; [exact Hstep|]. split; [exact Hres|].
  intros year. unfold table_records. unfold resolved_unit in Hres.
  rewrite Hres. reflexivity.
Qed.

Lemma C1_caption_unit_wins_witness :
  resolved_unit
    [ Heading h2 [py "District 1"]; Heading h3 [py "202 - OTHER"];
      Table (Some [py "101 - SHERMAN"]) sample_rows ] 2
  = Some (py "101", py "SHERMAN").
Proof.
  refine (proj1 (proj2 (C1_caption_unit_wins _ 2 [py "101 - SHERMAN"]
                          sample_rows (py "101", py "SHERMAN") _ _)));
    vm_compute; reflexivity.
Defined.

(** C9. A table that has a caption whose text does not match the unit
    pattern gets no unit and yields no record, whatever the headings
    before it have set: the unit of the last heading is given only to a
    table without a caption. *)
Theorem C9_unmatched_caption_drops_table (doc : document) (i : nat)
    (caption : list str) (rows : list (list (list str))) :
  doc !! i = Some (Table (Some caption) rows) ->
  gmu_match (get_text caption) = None ->
  (forall w, gmu_map (walk_step i (Table (Some caption) rows) w) = gmu_map w) /\
  resolved_unit doc i = None /\
  (forall year,
     table_records year (walk 0 doc walk_init) i (Table (Some caption) rows) = []) /\
  (forall w g, current_gmu w = Some g -> truthy g = true ->
     gmu_map (walk_step i (Table None rows) w) !! i =
       Some (g, or_empty (current_gmu_name w))).
Proof.
  intros Hi Hm.
  assert (Hfallback : forall w g, current_gmu w = Some g -> truthy g = true ->
     gmu_map (walk_step i (Table None rows) w) !! i =
       Some (g, or_empty (current_gmu_name w))).
  { intros w g Hg Ht. simpl. rewrite Hg, Ht. apply lookup_insert_eq. }
  assert (Hstep : forall w,
    gmu_map (walk_step i (Table (Some caption) rows) w) = gmu_map w).
  { intros w. simpl. rewrite Hm. reflexivity. }
  assert (Hres : resolved_unit doc i = None).
  { unfold resolved_unit. rewrite (walk_gmu_at _ _ _ Hi), Hstep.
    apply walk_init_prefix_fresh. }
  split; [exact Hstep|]. split; [exact Hres|]. split; [|exact Hfallback].
  intros year. unfold table_records. unfold resolved_unit in Hres.
  rewrite Hres. reflexivity.
Qed.

Lemma C9_unmatched_caption_drops_table_witness :
  resolved_unit
    [ Heading h2 [py "District 1"]; Heading h3 [py "101 - SHERMAN"];
      Table (Some [py "Harvest by method"]) sample_rows ] 2
  = None.
Proof.
  refine (proj1 (proj2 (C9_unmatched_caption_drops_table _ 2
                          [py "Harvest by method"] sample_rows _ _)));
    vm_compute; reflexivity.
Defined.

(** C2. A district heading (an h2 whose text matches District and a
    number) unsets the unit taken from headings. A table that follows it
    with no unit heading (h3 or h4 of unit-label form) in between, and
    whose caption, if any, does not match the unit pattern, gets no unit
    and yields no record. *)
Theorem C2_district_heading_clears_unit (pre mid post : document)
    (strings : list str) (d : str)
    (caption : option (list str)) (rows : list (list (list str))) :
  let doc := pre ++ Heading h2 strings :: mid ++ Table caption rows :: post in
  let i := (length pre + S (length mid))%nat in
  district_search (get_text strings) = Some d ->
  Forall (fun e => is_unit_heading e = false) mid ->
  (forall c, caption = Some c -> gmu_match (get_text c) = None) ->
  (forall k w, current_gmu (walk_step k (Heading h2 strings) w) = None /\
               current_gmu_name (walk_step k (Heading h2 strings) w) = None /\
               current_district (walk_step k (Heading h2 strings) w) = Some d) /\
  doc !! i = Some (Table caption rows) /\
  resolved_unit doc i = None /\
  (forall year,
     table_records year (walk 0 doc walk_init) i (Table caption rows) = []).
Proof.
  intros doc i Hd Hmid Hcap.
  assert (Hclear : forall k w,
    current_gmu (walk_step k (Heading h2 strings) w) = None /\
    current_gmu_name (walk_step k (Heading h2 strings) w) = None /\
    current_district (walk_step k (Heading h2 strings) w) = Some d).
  { intros k w. simpl. rewrite Hd. simpl. done. }
  assert (Hi : doc !! i = Some (Table caption rows)).
  { subst doc i. rewrite lookup_app_r by lia.
    replace (length pre + S (length mid) - length pre)%nat
      with (S (length mid)) by lia.
    simpl. rewrite lookup_app_r by lia.
    rewrite Nat.sub_diag. reflexivity. }
  assert (Hres : resolved_unit doc i = None).
  { unfold resolved_unit. rewrite (walk_gmu_at _ _ _ Hi).
    assert (Htake : take i doc = pre ++ Heading h2 strings :: mid).
    { subst doc i. rewrite take_app_ge by lia.
      replace (length pre + S (length mid) - length pre)%nat
        with (S (length mid)) by lia.
      simpl. rewrite take_app_length. reflexivity. }
    rewrite Htake, walk_app.
    set (w2 := walk (0 + length pre) (Heading h2 strings :: mid)
                 (walk 0 pre walk_init)).
    assert (Hw2 : current_gmu w2 = None).
    { subst w2.
      change (current_gmu (walk (S (0 + length pre)) mid
                (walk_step (0 + length pre) (Heading h2 strings)
                   (walk 0 pre walk_init))) = None).
      apply walk_keeps_gmu_unset; [exact Hmid|]. apply Hclear. }
    assert (Hfresh : gmu_map w2 !! i = None).
    { subst w2. rewrite <- walk_app, <- Htake. apply walk_init_prefix_fresh. }
    clearbody w2.
    destruct caption as [c|]; simpl.
    - rewrite (Hcap c eq_refl). exact Hfresh.
    - rewrite Hw2. exact Hfresh. }
  split; [exact Hclear|]. split; [exact Hi|]. split; [exact Hres|].
  intros year. unfold table_records. unfold resolved_unit in Hres.
  rewrite Hres. reflexivity.
Qed.

Lemma C2_district_heading_clears_unit_witness :
  resolved_unit
    [ Heading h3 [py "101 - SHERMAN"]; Heading h2 [py "District 4"];
      Heading h3 [py "Notes"]; Table None sample_rows ] 3
  = None.
Proof.
  refine (proj1 (proj2 (proj2
    (C2_district_heading_clears_unit [Heading h3 [py "101 - SHERMAN"]]
       [Heading h3 [py "Notes"]] [] [py "District 4"] (py "4") None
       sample_rows _ _ _)))).
  - vm_compute. reflexivity.
  - repeat constructor.
  - intros c Hc. discriminate Hc.
Defined.

End Walk.

(** ** Row classification *)

Lemma scan_row_short st cells :
  (length cells < 13)%nat -> Summary.scan_row st cells = Ok st.
Proof.
  intros H. unfold Summary.scan_row.
  apply Nat.ltb_lt in H. rewrite H. reflexivity.
Qed.

Lemma scan_row_header st cells :
  (13 <= length cells)%nat ->
  str_in (py "method") (first_cell_lower cells) = true ->
  Summary.scan_row st cells = Ok st.
Proof.
  intros Hlen Hm. unfold Summary.scan_row.
  apply Nat.ltb_ge in Hlen. rewrite Hlen.
  unfold first_cell_lower in Hm. rewrite Hm. reflexivity.
Qed.

Lemma scan_row_totals st cells :
  (13 <= length cells)%nat ->
  str_in (py "method") (first_cell_lower cells) = false ->
  str_in (py "total") (first_cell_lower cells) = true ->
  Summary.scan_row st cells = Ok (seeded st cells).
Proof.
  intros Hlen Hm Ht. unfold Summary.scan_row.
  apply Nat.ltb_ge in Hlen. rewrite Hlen.
  unfold first_cell_lower in Hm, Ht. rewrite Hm, Ht.
  rewrite parse_int_value_ok. reflexivity.
Qed.

Lemma scan_row_method st cells :
  (13 <= length cells)%nat ->
  str_in (py "method") (first_cell_lower cells) = false ->
  str_in (py "total") (first_cell_lower cells) = false ->
  Summary.scan_row st cells = Ok (accumulated st cells).
Proof.
  intros Hlen Hm Ht. unfold Summary.scan_row.
  apply Nat.ltb_ge in Hlen. rewrite Hlen.
  unfold first_cell_lower in Hm, Ht. rewrite Hm, Ht.
  rewrite !parse_int_value_ok. reflexivity.
Qed.

(** C3, as the code has it. In summary mode a row of at least 13 cells that
    is not a header row (its first cell's lower-cased text does not contain
    method) is taken as the totals row exactly when that text contains
    total: then column 3, parsed as an integer, becomes [total_harvest] and
    columns 9 and 11 are not added; otherwise columns 9 and 11 are added
    and [total_harvest] stays. A first cell that reads totals is such a
    totals row. *)
Theorem C3_totals_row_contains_total (st : Summary.scan) (cells : list (list str)) :
  (13 <= length cells)%nat ->
  (first_cell_lower cells = py "totals" ->
     Summary.scan_row st cells = Ok (seeded st cells)) /\
  (str_in (py "method") (first_cell_lower cells) = false ->
     str_in (py "total") (first_cell_lower cells) = true ->
     Summary.scan_row st cells = Ok (seeded st cells)) /\
  (str_in (py "method") (first_cell_lower cells) = false ->
     str_in (py "total") (first_cell_lower cells) = false ->
     Summary.scan_row st cells = Ok (accumulated st cells)).
Proof.
  intros Hlen. split; [|split].
  - intros H. apply scan_row_totals; [exact Hlen| |]; rewrite H; reflexivity.
  - apply scan_row_totals; exact Hlen.
  - apply scan_row_method; exact Hlen.
Qed.

Lemma C3_totals_row_contains_total_witness :
  Summary.scan_row Summary.scan_init
    (cells_of ["Totals"; "13"; "37"; "50"; "1"; "2"; "3"; "1"; "0";
               "200"; "25%"; "1,000"; "20"]%string)
  = Ok {| Summary.archery_data := None; Summary.total_harvest := 50;
          Summary.total_hunters := 0; Summary.total_hunter_days := 0 |}.
Proof.
  refine (proj1 (C3_totals_row_contains_total Summary.scan_init _ _) _).
  - vm_compute. lia.
  - vm_compute. reflexivity.
Defined.

(** C3 as stated fails: a row whose first cell reads Total, which is not
    totals, sets [total_harvest] from its column 3 and its columns 9 and 11
    are not added. *)
Lemma C3_counterexample_total_row :
  let row := cells_of ["Total"; "1"; "2"; "7"; "0"; "0"; "0"; "0"; "0";
                       "5"; "50%"; "9"; "3"]%string in
  (13 <= length row)%nat /\
  first_cell_lower row <> py "totals" /\
  parse_int_value (cell_text row 9) = 5 /\
  parse_int_value (cell_text row 11) = 9 /\
  Summary.scan_row Summary.scan_init row =
    Ok {| Summary.archery_data := None; Summary.total_harvest := 7;
          Summary.total_hunters := 0; Summary.total_hunter_days := 0 |}.
Proof.
  split; [vm_compute; lia|].
  repeat split; vm_compute; congruence.
Qed.

Lemma row_records_empty_iff year district gmu_number gmu_name cells :
  (13 <= length cells)%nat ->
  AllYears.row_records year district gmu_number gmu_name cells = [] <->
  first_cell_lower cells = py "method" \/ first_cell_lower cells = py "totals".
Proof.
  intros Hlen. unfold AllYears.row_records.
  apply Nat.ltb_ge in Hlen. rewrite Hlen.
  fold (first_cell_lower cells).
  destruct (str_eqb (first_cell_lower cells) (py "method")) eqn:E1.
  { apply str_eqb_true in E1. tauto. }
  destruct (str_eqb (first_cell_lower cells) (py "totals")) eqn:E2.
  { apply str_eqb_true in E2. tauto. }
  apply str_eqb_false in E1, E2. split; [discriminate|tauto].
Qed.

(** C4, as the code has it. In summary mode a row of at least 13 cells whose
    first cell's lower-cased text contains method leaves every variable of
    the scan as it was. In method-level mode the header row is the one whose
    lower-cased first cell equals method: a row yields no record exactly
    when that text equals method or totals, so a row that contains method
    without being equal to it yields one record. *)
Theorem C4_header_row_per_mode (cells : list (list str)) :
  (13 <= length cells)%nat ->
  (forall st, str_in (py "method") (first_cell_lower cells) = true ->
              Summary.scan_row st cells = Ok st) /\
  (forall year district gmu_number gmu_name,
     AllYears.row_records year district gmu_number gmu_name cells = [] <->
     first_cell_lower cells = py "method" \/ first_cell_lower cells = py "totals") /\
  (forall year district gmu_number gmu_name,
     str_in (py "method") (first_cell_lower cells) = true ->
     first_cell_lower cells <> py "method" ->
     exists r, AllYears.row_records year district gmu_number gmu_name cells = [r]).
Proof.
  intros Hlen. split; [|split].
  - intros st. apply scan_row_header. exact Hlen.
  - intros. apply row_records_empty_iff. exact Hlen.
  - intros year district gmu_number gmu_name Hin Hne.
    assert (Hnt : first_cell_lower cells <> py "totals").
    { intros H. rewrite H in Hin. vm_compute in Hin. discriminate. }
    unfold AllYears.row_records.
    apply Nat.ltb_ge in Hlen. rewrite Hlen.
    fold (first_cell_lower cells).
    apply str_eqb_false in Hne, Hnt. rewrite Hne, Hnt. eauto.
Qed.

Lemma C4_header_row_per_mode_witness :
  Summary.scan_row Summary.scan_init
    (cells_of ["Method"; "Antlerless"; "Antlered"; "Total"; "1 Point";
               "2 Point"; "3 Point"; "4 Point"; "5+ Point"; "Hunters";
               "Success"; "Days"; "Days/Kill"]%string)
  = Ok Summary.scan_init.
Proof.
  refine (proj1 (C4_header_row_per_mode _ _) Summary.scan_init _).
  - vm_compute. lia.
  - vm_compute. reflexivity.
Defined.

(** C4 as stated fails in method-level mode: a row whose first cell reads
    Method Type contains method and still yields a record. *)
Lemma C4_counterexample_method_type_row :
  let row := cells_of ["Method Type"; "1"; "2"; "3"; "0"; "0"; "0"; "0"; "0";
                       "5"; "50%"; "9"; "3"]%string in
  (13 <= length row)%nat /\
  str_in (py "method") (first_cell_lower row) = true /\
  length (AllYears.row_records 2024 (Some (py "1")) (py "101") (py "SHERMAN") row) = 1%nat /\
  (exists r, AllYears.row_records 2024 (Some (py "1")) (py "101") (py "SHERMAN") row = [r] /\
             dict_get r "method" = Some (Str (py "Method Type"))).
Proof.
  split; [vm_compute; lia|].
  split; [vm_compute; reflexivity|].
  split; [vm_compute; reflexivity|].
  eexists. split; vm_compute; reflexivity.
Qed.

(** ** Rounding and formatting of floats *)










(** ** The summary record of scrape_deer_harvest.py *)

Section SummaryRecord.
Import Summary.

















End SummaryRecord.

(** ** End to end *)

Section EndToEnd.

Variables (heading caption : list str) (district g1 g2 : str).
Variables (header archery modern totals : list (list str)).
Variable year : Z.

Hypothesis heading_is_district : district_search (get_text heading) = Some district.
Hypothesis caption_is_unit : gmu_match (get_text caption) = Some (g1, g2).
Hypothesis header_cells : length header = 12%nat.
Hypothesis archery_cells : length archery = 12%nat.
Hypothesis modern_cells : length modern = 12%nat.
Hypothesis totals_cells : length totals = 12%nat.





End EndToEnd.


(** * Further properties *)


(** ** Stripping *)

Lemma skip_while_clear f s :
  from_option f false (head s) = false -> skip_while f s = s.
Proof. destruct s as [|c s]; simpl; [reflexivity|]. intros ->. reflexivity. Qed.

Lemma skip_while_head f s :
  from_option f false (head (skip_while f s)) = false.
Proof.
  induction s as [|c s IH]; simpl; [reflexivity|].
  destruct (f c) eqn:Hc; [exact IH|]. simpl. exact Hc.
Qed.

(** What [skip_while] keeps is a suffix. *)
Lemma skip_while_suffix f s : exists p, s = p ++ skip_while f s.
Proof.
  induction s as [|c s [p IH]]; simpl.
  - exists []. reflexivity.
  - destruct (f c).
    + exists (c :: p). simpl. f_equal. exact IH.
    + exists []. reflexivity.
Qed.

Lemma head_rev (s : str) : head (rev s) = last s.
Proof.
  induction s as [|c s IH]; [reflexivity|].
  simpl. destruct s as [|c' s]; [reflexivity|].
  rewrite last_cons, <- IH. simpl.
  destruct (rev s ++ [c']) eqn:E; [|reflexivity].
  destruct (rev s); discriminate.
Qed.

Lemma last_rev (s : str) : last (rev s) = head s.
Proof. rewrite <- head_rev, rev_involutive. reflexivity. Qed.

Lemma strip_class_fixed f s :
  edges_clear f s = true -> strip_class f s = s.
Proof.
  unfold edges_clear, strip_class. intros H.
  apply andb_true_iff in H as [Hh Hl].
  apply negb_true_iff in Hh, Hl.
  rewrite (skip_while_clear f s Hh).
  rewrite skip_while_clear by (rewrite head_rev; exact Hl).
  apply rev_involutive.
Qed.

Lemma strip_class_edges f s : edges_clear f (strip_class f s) = true.
Proof.
  unfold edges_clear, strip_class.
  set (t := skip_while f s).
  assert (Ht : from_option f false (head t) = false) by apply skip_while_head.
  rewrite last_rev.
  rewrite (skip_while_head f (rev t)). simpl. rewrite andb_true_r.
  apply negb_true_iff.
  destruct (skip_while_suffix f (rev t)) as [p Hp].
  destruct (skip_while f (rev t)) as [|c u] eqn:Hu using rev_ind.
  - reflexivity.
  - clear IHu. rewrite rev_app_distr. simpl.
    assert (Hrev : t = rev (p ++ u ++ [c])).
    { rewrite <- Hp. symmetry. apply rev_involutive. }
    rewrite !rev_app_distr in Hrev. simpl in Hrev.
    rewrite Hrev in Ht. exact Ht.
Qed.

Lemma strip_class_idem f s : strip_class f (strip_class f s) = strip_class f s.
Proof. apply strip_class_fixed, strip_class_edges. Qed.

Lemma strip_idem s : strip (strip s) = strip s.
Proof. apply strip_class_idem. Qed.

Lemma clean_value_cases val :
  (lower (strip val) = py "n/a" /\ clean_value val = []) \/
  (lower (strip val) <> py "n/a" /\ clean_value val = strip val).
Proof.
  unfold clean_value.
  destruct (str_eqb (lower (strip val)) (py "n/a")) eqn:E.
  - left. split; [apply str_eqb_true; exact E|reflexivity].
  - right. split; [apply str_eqb_false; exact E|reflexivity].
Qed.

(** X1. What [clean_value] returns is clean: it is empty or the stripped
    input, it has no white space at either end, it does not read n/a in any
    case, and cleaning it again changes nothing. *)
Theorem X1_clean_value_is_clean (val : str) :
  (clean_value val = [] \/ clean_value val = strip val) /\
  edges_clear is_space (clean_value val) = true /\
  lower (clean_value val) <> py "n/a" /\
  clean_value (clean_value val) = clean_value val.
Proof.
  destruct (clean_value_cases val) as [[_ ->] | [Hne ->]].
  - split; [left; reflexivity|]. repeat split; vm_compute; congruence.
  - split; [right; reflexivity|].
    split; [apply strip_class_edges|]. split; [exact Hne|].
    destruct (clean_value_cases (strip val)) as [[Hna _] | [_ ->]].
    + rewrite strip_idem in Hna. contradiction.
    + apply strip_idem.
Qed.


(** ** Decimal text of integers *)













(** ** More on the context walk *)

Section WalkContext.
Import AllYears.

Lemma walk_step_district_other i j e w :
  i <> j -> district_map (walk_step i e w) !! j = district_map w !! j.
Proof.
  intros Hij. destruct e as [[| |] strings | caption rows]; simpl;
    repeat match goal with
    | |- context [match ?x with _ => _ end] => destruct x; simpl
    end;
    rewrite ?lookup_insert_ne by done; reflexivity.
Qed.

Lemma walk_district_outside (doc : document) k w j :
  (j < k \/ k + length doc <= j)%nat ->
  district_map (walk k doc w) !! j = district_map w !! j.
Proof.
  revert k w. induction doc as [|e doc IH]; intros k w Hj; simpl; [done|].
  rewrite IH by (simpl in Hj; lia).
  apply walk_step_district_other. simpl in Hj. lia.
Qed.

Lemma walk_district_at (doc : document) j e :
  doc !! j = Some e ->
  district_map (walk 0 doc walk_init) !! j =
  district_map (walk_step j e (walk 0 (take j doc) walk_init)) !! j.
Proof.
  intros Hj. pose proof (lookup_lt_Some _ _ _ Hj) as Hlen.
  rewrite <- (take_drop_middle doc j e Hj) at 1.
  rewrite walk_app. simpl.
  rewrite length_take, Nat.min_l by lia. simpl.
  apply walk_district_outside. lia.
Qed.

(** Elements that are no district heading leave [current_district] alone. *)
Lemma walk_keeps_district (mid : document) k w :
  Forall (fun e => is_district_heading e = false) mid ->
  current_district (walk k mid w) = current_district w.
Proof.
  intros Hmid. revert k w.
  induction Hmid as [|e mid He _ IH]; intros k w; simpl; [done|].
  rewrite IH.
  destruct e as [[| |] strings | caption rows]; simpl in *.
  - apply bool_decide_eq_false in He.
    destruct (district_search _); [|done]. exfalso. apply He. done.
  - destruct (gmu_match _) as [[g1 g2]|]; done.
  - destruct (gmu_match _) as [[g1 g2]|]; done.
  - done.
Qed.

(** Elements that are neither a district heading nor a unit heading leave
    the unit of the last heading alone. *)
Lemma walk_keeps_gmu (mid : document) k w :
  Forall (fun e => is_district_heading e = false /\ is_unit_heading e = false) mid ->
  current_gmu (walk k mid w) = current_gmu w /\
  current_gmu_name (walk k mid w) = current_gmu_name w.
Proof.
  intros Hmid. revert k w.
  induction Hmid as [|e mid [Hd Hu] _ IH]; intros k w; simpl; [done|].
  destruct (IH (S k) (walk_step k e w)) as [-> ->]. clear IH.
  destruct e as [[| |] strings | caption rows]; simpl in *.
  - apply bool_decide_eq_false in Hd.
    destruct (district_search _); [|done]. exfalso. apply Hd. done.
  - apply bool_decide_eq_false in Hu.
    destruct (gmu_match _) as [[g1 g2]|]; [|done]. exfalso. apply Hu. done.
  - apply bool_decide_eq_false in Hu.
    destruct (gmu_match _) as [[g1 g2]|]; [|done]. exfalso. apply Hu. done.
  - done.
Qed.

(** The summary script's walk is the district part of the method-level walk. *)
Lemma summary_walk_districts (doc : document) k w :
  Summary.walk k doc (district_map w) (current_district w) =
  (district_map (walk k doc w), current_district (walk k doc w)).
Proof.
  revert k w. induction doc as [|e doc IH]; intros k w; [reflexivity|].
  destruct e as [[| |] strings | caption rows]; cbn [Summary.walk walk].
  - destruct (district_search (get_text strings)) as [d|] eqn:Hd.
    + rewrite <- IH. simpl. rewrite Hd. reflexivity.
    + rewrite <- IH. simpl. rewrite Hd. reflexivity.
  - rewrite <- IH. simpl. destruct (gmu_match _) as [[g1 g2]|]; reflexivity.
  - rewrite <- IH. simpl. destruct (gmu_match _) as [[g1 g2]|]; reflexivity.
  - rewrite <- IH. reflexivity.
Qed.

Lemma lookup_middle_table (pre mid post : document) (e0 e : element) :
  (pre ++ e0 :: mid ++ e :: post) !! (length pre + S (length mid))%nat = Some e /\
  take (length pre + S (length mid)) (pre ++ e0 :: mid ++ e :: post) =
    pre ++ e0 :: mid.
Proof.
  split.
  - rewrite lookup_app_r by lia.
    replace (length pre + S (length mid) - length pre)%nat
      with (S (length mid)) by lia.
    simpl. rewrite lookup_app_r by lia.
    rewrite Nat.sub_diag. reflexivity.
  - rewrite take_app_ge by lia.
    replace (length pre + S (length mid) - length pre)%nat
      with (S (length mid)) by lia.
    simpl. rewrite take_app_length. reflexivity.
Qed.

(** Every record of a table is the record of one of its data rows. *)
Lemma parse_gmu_table_forall (P : dict -> Prop) rows year district
    gmu_number gmu_name :
  (forall cells,
     (13 <= length cells)%nat ->
     first_cell_lower cells <> py "method" ->
     first_cell_lower cells <> py "totals" ->
     P (method_record year district gmu_number gmu_name (map get_text cells))) ->
  Forall P (parse_gmu_table rows year district gmu_number gmu_name).
Proof.
  intros HP. unfold parse_gmu_table.
  induction rows as [|row rows IH]; simpl; [constructor|].
  apply Forall_app. split; [|exact IH].
  unfold row_records. fold (first_cell_lower row).
  destruct (Nat.ltb_spec (length row) 13) as [Hlen|Hlen]; [constructor|].
  destruct (str_eqb (first_cell_lower row) (py "method")) eqn:E1; [constructor|].
  destruct (str_eqb (first_cell_lower row) (py "totals")) eqn:E2; [constructor|].
  apply str_eqb_false in E1, E2. repeat constructor. apply HP; assumption.
Qed.

(** X3. A table belongs to the district of the last district heading before
    it: after an h2 that names district [d], with no other district heading
    in between, both scripts record [d] for the table, and every method
    record of the table carries [d] in its district field. *)
Theorem X3_table_district (pre mid post : document) (strings : list str)
    (d : str) (caption : option (list str)) (rows : list (list (list str))) :
  let doc := pre ++ Heading h2 strings :: mid ++ Table caption rows :: post in
  let i := (length pre + S (length mid))%nat in
  district_search (get_text strings) = Some d ->
  Forall (fun e => is_district_heading e = false) mid ->
  district_map (walk 0 doc walk_init) !! i = Some (Some d) /\
  fst (Summary.walk 0 doc ∅ None) !! i = Some (Some d) /\
  (forall year,
     Forall (fun r => dict_get r "district" = Some (Str d))
       (table_records year (walk 0 doc walk_init) i (Table caption rows))).
Proof.
  intros doc i Hd Hmid.
  destruct (lookup_middle_table pre mid post (Heading h2 strings)
              (Table caption rows)) as [Hi Htake].
  fold doc i in Hi, Htake.
  assert (Hmap : district_map (walk 0 doc walk_init) !! i = Some (Some d)).
  { rewrite (walk_district_at _ _ _ Hi), Htake, walk_app.
    cbn [walk]. simpl district_map. rewrite lookup_insert_eq.
    rewrite walk_keeps_district by exact Hmid.
    simpl. rewrite Hd. reflexivity. }
  split; [exact Hmap|]. split.
  - change (∅ : gmap nat (option str)) with (district_map walk_init).
    change (@None str) with (current_district walk_init).
    rewrite summary_walk_districts. exact Hmap.
  - intros year. unfold table_records.
    destruct (gmu_map _ !! i) as [[gmu_number gmu_name]|]; [|constructor].
    unfold str in *. rewrite Hmap.
    apply parse_gmu_table_forall. intros cells _ _ _.
    simpl. destruct d; reflexivity.
Qed.

Lemma X3_table_district_witness :
  district_map
    (walk 0 [ Heading h2 [py "District 1"]; Heading h2 [py "District 2"];
              Heading h3 [py "204 - OLYMPIC"]; Table None sample_rows ]
       walk_init) !! 3%nat
  = Some (Some (py "2")).
Proof.
  refine (proj1 (X3_table_district [Heading h2 [py "District 1"]]
                   [Heading h3 [py "204 - OLYMPIC"]] [] [py "District 2"]
                   (py "2") None sample_rows _ _)).
  - vm_compute. reflexivity.
  - repeat constructor.
Defined.

(** X4. A table that no district heading precedes has no district: both
    scripts record none for it, the method records carry the empty text in
    the district field, and so does the summary record. *)
Theorem X4_table_without_district (pre post : document)
    (caption : option (list str)) (rows : list (list (list str))) :
  let doc := pre ++ Table caption rows :: post in
  let i := length pre in
  Forall (fun e => is_district_heading e = false) pre ->
  district_map (walk 0 doc walk_init) !! i = Some None /\
  fst (Summary.walk 0 doc ∅ None) !! i = Some None /\
  (forall year,
     Forall (fun r => dict_get r "district" = Some (Str []))
       (table_records year (walk 0 doc walk_init) i (Table caption rows))) /\
  (forall rs,
     Summary.table_records (fst (Summary.walk 0 doc ∅ None)) i
       (Table caption rows) = Ok rs ->
     Forall (fun r => dict_get r "district" = Some (Str [])) rs).
Proof.
  intros doc i Hpre.
  assert (Hi : doc !! i = Some (Table caption rows)).
  { subst doc i. rewrite lookup_app_r by lia. rewrite Nat.sub_diag. reflexivity. }
  assert (Htake : take i doc = pre).
  { subst doc i. apply take_app_length. }
  assert (Hmap : district_map (walk 0 doc walk_init) !! i = Some None).
  { rewrite (walk_district_at _ _ _ Hi), Htake.
    simpl district_map. rewrite lookup_insert_eq.
    rewrite walk_keeps_district by exact Hpre. reflexivity. }
  assert (Hsum : fst (Summary.walk 0 doc ∅ None) !! i = Some None).
  { change (∅ : gmap nat (option str)) with (district_map walk_init).
    change (@None str) with (current_district walk_init).
    rewrite summary_walk_districts. exact Hmap. }
  split; [exact Hmap|]. split; [exact Hsum|]. split.
  - intros year. unfold table_records.
    destruct (gmu_map _ !! i) as [[gmu_number gmu_name]|]; [|constructor].
    unfold str in *. rewrite Hmap.
    apply parse_gmu_table_forall. reflexivity.
  - intros rs. unfold Summary.table_records.
    destruct caption as [c|]; [|intros [= <-]; constructor].
    destruct (gmu_match (get_text c)) as [[g1 g2]|]; [|intros [= <-]; constructor].
    unfold str in *. rewrite Hsum.
    unfold Summary.parse_gmu_table.
    destruct (Summary.scan_rows _ _) as [st|]; [|discriminate]. simpl.
    destruct (Summary.overall_stats st) as [[a b]|]; [|discriminate]. simpl.
    intros [= <-]. repeat constructor.
Qed.

Lemma X4_table_without_district_witness :
  district_map
    (walk 0 [ Heading h2 [py "Deer harvest"]; Heading h3 [py "101 - SHERMAN"];
              Table None sample_rows ]
       walk_init) !! 2%nat
  = Some None.
Proof.
  refine (proj1 (X4_table_without_district
                   [Heading h2 [py "Deer harvest"]; Heading h3 [py "101 - SHERMAN"]]
                   [] None sample_rows _)).
  repeat constructor.
Defined.

Lemma walk_district_dom_step i e w j :
  district_map (walk_step i e w) !! j =
    match e with
    | Table _ _ => if decide (i = j) then Some (current_district w)
                   else district_map w !! j
    | Heading _ _ => district_map w !! j
    end.
Proof.
  destruct e as [[| |] strings | caption rows]; simpl.
  - destruct (district_search _); reflexivity.
  - destruct (gmu_match _) as [[g1 g2]|]; reflexivity.
  - destruct (gmu_match _) as [[g1 g2]|]; reflexivity.
  - apply lookup_insert.
Qed.

(** X5. Both scripts build the same district map, and it has an entry for
    exactly the tables of the page: the default of [district_map.get] is
    never used. *)
Theorem X5_district_maps_agree (doc : document) :
  fst (Summary.walk 0 doc ∅ None) = district_map (walk 0 doc walk_init) /\
  (forall i,
     is_Some (district_map (walk 0 doc walk_init) !! i) <->
     exists caption rows, doc !! i = Some (Table caption rows)).
Proof.
  split.
  - change (∅ : gmap nat (option str)) with (district_map walk_init).
    change (@None str) with (current_district walk_init).
    rewrite summary_walk_districts. reflexivity.
  - intros i. destruct (doc !! i) as [e|] eqn:Hi.
    + rewrite (walk_district_at _ _ _ Hi), walk_district_dom_step.
      destruct e as [lvl strings | caption rows].
      * rewrite walk_district_outside
          by (right; rewrite length_take; lia).
        simpl. rewrite lookup_empty. split.
        -- intros [x Hx]. discriminate.
        -- intros (c & r & H). discriminate.
      * rewrite decide_True by reflexivity. split; eauto.
    + rewrite walk_district_outside
        by (right; apply lookup_ge_None in Hi; lia).
      simpl. rewrite lookup_empty. split.
      * intros [x Hx]. discriminate.
      * intros (c & r & H). discriminate.
Qed.

End WalkContext.


(** ** Units *)

Section Units.
Import AllYears.

(** Group 1 of the unit pattern is the first three characters, all digits;
    group 2 is not empty and holds no line feed. *)
Lemma gmu_match_groups s g1 g2 :
  gmu_match s = Some (g1, g2) ->
  g1 = take 3 s /\ length g1 = 3%nat /\ forallb is_digit g1 = true /\
  g2 <> [] /\ forallb is_dot g2 = true.
Proof.
  unfold gmu_match.
  destruct s as [|a [|b [|c rest]]]; try discriminate.
  destruct (is_digit a) eqn:Ha; [|discriminate].
  destruct (is_digit b) eqn:Hb; [|discriminate].
  destruct (is_digit c) eqn:Hc; [|discriminate]. simpl.
  destruct (lstrip rest) as [|d rest']; [discriminate|].
  destruct (is_dash d); [|discriminate].
  destruct (spaces_dot_plus rest') as [g|] eqn:Hg; [|discriminate].
  intros [= <- <-].
  assert (Hdot : forall t g', dot_plus t = Some g' ->
            g' <> [] /\ forallb is_dot g' = true).
  { intros t g'. unfold dot_plus.
    destruct (take_while is_dot t) as [|x u] eqn:E; [discriminate|].
    intros [= <-]. split; [discriminate|]. rewrite <- E.
    clear. induction t as [|y t IH]; simpl; [reflexivity|].
    destruct (is_dot y) eqn:Hy; simpl; [rewrite Hy; exact IH|reflexivity]. }
  assert (Hg2 : g <> [] /\ forallb is_dot g = true).
  { revert g Hg. induction rest' as [|x rest' IH]; intros g; simpl; [discriminate|].
    destruct (is_space x).
    - destruct (spaces_dot_plus rest') as [g'|].
      + intros [= <-]. apply IH. reflexivity.
      + apply Hdot.
    - apply Hdot. }
  simpl. rewrite Ha, Hb, Hc. repeat split; apply Hg2.
Qed.

Lemma or_empty_some (x : str) : or_empty (Some x) = x.
Proof. destruct x; reflexivity. Qed.

(** X6. Without a caption, a table takes the unit of the last unit heading:
    after an h3 or h4 whose text matches the unit pattern, with neither a
    unit heading nor a district heading in between, a table without
    caption gets the unit parsed from that heading, and its records are
    those of that unit. *)
Theorem X6_heading_unit (pre mid post : document) (level : heading)
    (strings : list str) (g : str * str) (rows : list (list (list str))) :
  let doc := pre ++ Heading level strings :: mid ++ Table None rows :: post in
  let i := (length pre + S (length mid))%nat in
  level <> h2 ->
  gmu_of_text (get_text strings) = Some g ->
  Forall (fun e => is_district_heading e = false /\ is_unit_heading e = false) mid ->
  resolved_unit doc i = Some g /\
  (forall year,
     table_records year (walk 0 doc walk_init) i (Table None rows) =
     parse_gmu_table rows year
       (default (Some []) (district_map (walk 0 doc walk_init) !! i))
       (fst g) (snd g)).
Proof.
  intros doc i Hlevel Hg Hmid.
  destruct (lookup_middle_table pre mid post (Heading level strings)
              (Table None rows)) as [Hi Htake].
  fold doc i in Hi, Htake.
  unfold gmu_of_text in Hg.
  destruct (gmu_match (get_text strings)) as [[g1 g2]|] eqn:Hm; [|discriminate].
  injection Hg as <-.
  destruct (gmu_match_groups _ _ _ Hm) as (_ & Hlen & _).
  assert (Hres : resolved_unit doc i = Some (g1, strip g2)).
  { unfold resolved_unit. rewrite (walk_gmu_at _ _ _ Hi), Htake, walk_app.
    set (w2 := walk (0 + length pre) (Heading level strings :: mid)
                 (walk 0 pre walk_init)).
    assert (Hw2 : current_gmu w2 = Some g1 /\
                  current_gmu_name w2 = Some (strip g2)).
    { subst w2.
      change (walk (0 + length pre) (Heading level strings :: mid)
                (walk 0 pre walk_init))
        with (walk (S (0 + length pre)) mid
                (walk_step (0 + length pre) (Heading level strings)
                   (walk 0 pre walk_init))).
      destruct (walk_keeps_gmu mid (S (0 + length pre))
                  (walk_step (0 + length pre) (Heading level strings)
                     (walk 0 pre walk_init)) Hmid) as [-> ->].
      destruct level; [contradiction| |]; simpl; rewrite Hm; split; reflexivity. }
    destruct Hw2 as [Hgmu Hname]. clearbody w2.
    cbn [walk_step gmu_map]. rewrite Hgmu.
    destruct g1 as [|c g1]; [discriminate Hlen|]. cbn [truthy].
    rewrite Hname, or_empty_some. apply lookup_insert_eq. }
  split; [exact Hres|].
  intros year. unfold table_records. unfold resolved_unit in Hres.
  rewrite Hres. reflexivity.
Qed.

Lemma X6_heading_unit_witness :
  resolved_unit
    [ Heading h2 [py "District 1"]; Heading h3 [py "101 - SHERMAN"];
      Heading h4 [py "General season"]; Table None sample_rows ] 3
  = Some (py "101", py "SHERMAN").
Proof.
  refine (proj1 (X6_heading_unit [Heading h2 [py "District 1"]]
                   [Heading h4 [py "General season"]] [] h3
                   [py "101 - SHERMAN"] (py "101", py "SHERMAN") sample_rows
                   _ _ _)).
  - discriminate.
  - vm_compute. reflexivity.
  - repeat constructor.
Defined.







End Units.


(** ** Rows *)

Section Rows.

Lemma row_records_short year district gmu_number gmu_name cells :
  long_row cells = false ->
  AllYears.row_records year district gmu_number gmu_name cells = [].
Proof.
  unfold long_row, AllYears.row_records. intros H.
  apply Nat.leb_gt in H. apply Nat.ltb_lt in H. rewrite H. reflexivity.
Qed.

Lemma scan_row_not_long st cells :
  long_row cells = false -> Summary.scan_row st cells = Ok st.
Proof.
  unfold long_row. intros H. apply Nat.leb_gt in H.
  apply scan_row_short. exact H.
Qed.

Lemma scan_rows_filter_long rows : forall st,
  Summary.scan_rows st (List.filter long_row rows) = Summary.scan_rows st rows.
Proof.
  induction rows as [|row rows IH]; intros st; simpl; [reflexivity|].
  destruct (long_row row) eqn:Hl; simpl.
  - destruct (Summary.scan_row st row); simpl; [apply IH|reflexivity].
  - rewrite scan_row_not_long by exact Hl. simpl. apply IH.
Qed.

(** X8. Rows with fewer than 13 cells count for nothing: dropping them from
    a table changes neither the method records nor the summary record. *)
Theorem X8_short_rows_ignored (rows : list (list (list str))) :
  (forall year district gmu_number gmu_name,
     AllYears.parse_gmu_table (List.filter long_row rows) year district
       gmu_number gmu_name =
     AllYears.parse_gmu_table rows year district gmu_number gmu_name) /\
  (forall district gmu_number gmu_name,
     Summary.parse_gmu_table (List.filter long_row rows) district
       gmu_number gmu_name =
     Summary.parse_gmu_table rows district gmu_number gmu_name).
Proof.
  split.
  - intros. unfold AllYears.parse_gmu_table.
    induction rows as [|row rows IH]; simpl; [reflexivity|].
    destruct (long_row row) eqn:Hl; simpl.
    + rewrite IH. reflexivity.
    + rewrite row_records_short by exact Hl. exact IH.
  - intros. unfold Summary.parse_gmu_table.
    rewrite scan_rows_filter_long. reflexivity.
Qed.

Lemma row_records_data year district gmu_number gmu_name cells :
  AllYears.row_records year district gmu_number gmu_name cells =
    if is_data_row cells
    then [AllYears.method_record year district gmu_number gmu_name
            (map get_text cells)]
    else [].
Proof.
  unfold AllYears.row_records, is_data_row, long_row.
  fold (first_cell_lower cells).
  destruct (Nat.ltb_spec (length cells) 13) as [H|H].
  - apply Nat.leb_gt in H. rewrite H. reflexivity.
  - apply Nat.leb_le in H. rewrite H. simpl.
    destruct (str_eqb _ (py "method")); [reflexivity|].
    destruct (str_eqb _ (py "totals")); reflexivity.
Qed.

(** X9. The method records of a table are the records of its data rows
    (13 cells or more, first cell neither method nor totals when
    lower-cased), one each and in the order of the rows. *)
Theorem X9_one_record_per_data_row (rows : list (list (list str)))
    (year : Z) (district : option str) (gmu_number gmu_name : str) :
  AllYears.parse_gmu_table rows year district gmu_number gmu_name =
    map (fun cells =>
           AllYears.method_record year district gmu_number gmu_name
             (map get_text cells))
        (List.filter is_data_row rows) /\
  length (AllYears.parse_gmu_table rows year district gmu_number gmu_name) =
    length (List.filter is_data_row rows).
Proof.
  assert (H : AllYears.parse_gmu_table rows year district gmu_number gmu_name =
    map (fun cells =>
           AllYears.method_record year district gmu_number gmu_name
             (map get_text cells))
        (List.filter is_data_row rows)).
  { unfold AllYears.parse_gmu_table.
    induction rows as [|row rows IH]; simpl; [reflexivity|].
    rewrite row_records_data, IH.
    destruct (is_data_row row); reflexivity. }
  split; [exact H|]. rewrite H. apply length_map.
Qed.

Lemma scan_row_kinds st cells :
  Summary.scan_row st cells =
    Ok (if is_summary_totals cells then seeded st cells
        else if is_summary_method cells then accumulated st cells
        else st).
Proof.
  unfold is_summary_totals, is_summary_method, is_scanned_row.
  destruct (long_row cells) eqn:Hl; [|apply scan_row_not_long; exact Hl].
  unfold long_row in Hl. apply Nat.leb_le in Hl. simpl.
  destruct (str_in (py "method") (first_cell_lower cells)) eqn:Hm; simpl.
  { apply scan_row_header; assumption. }
  destruct (str_in (py "total") (first_cell_lower cells)) eqn:Ht; simpl.
  - apply scan_row_totals; assumption.
  - apply scan_row_method; assumption.
Qed.

Lemma sum_column_cons i cells rows :
  sum_column i (cells :: rows) =
  parse_int_value (cell_text cells i) + sum_column i rows.
Proof. reflexivity. Qed.

(** What the scan of the summary script has gathered after [rows]. *)
Lemma scan_rows_summary rows : forall st,
  Summary.scan_rows st rows =
    Ok {| Summary.archery_data :=
            match last (List.filter is_summary_archery rows) with
            | Some cells => Some (archery_of cells)
            | None => Summary.archery_data st
            end;
          Summary.total_harvest :=
            match last (List.filter is_summary_totals rows) with
            | Some cells => parse_int_value (cell_text cells 3)
            | None => Summary.total_harvest st
            end;
          Summary.total_hunters :=
            Summary.total_hunters st +
            sum_column 9 (List.filter is_summary_method rows);
          Summary.total_hunter_days :=
            Summary.total_hunter_days st +
            sum_column 11 (List.filter is_summary_method rows) |}.
Proof.
  induction rows as [|row rows IH]; intros st.
  - simpl. destruct st. simpl. f_equal. f_equal; lia.
  - cbn [Summary.scan_rows]. rewrite scan_row_kinds.
    cbn [mbind result_bind]. rewrite IH. clear IH.
    cbn [List.filter].
    unfold is_summary_totals, is_summary_method, is_summary_archery.
    destruct (is_scanned_row row) eqn:Hs; cbn [andb];
      [|reflexivity].
    destruct (str_in (py "total") (first_cell_lower row)) eqn:Ht;
      destruct (str_in (py "archery") (first_cell_lower row)) eqn:Ha;
      cbn [negb]; rewrite ?last_cons;
      unfold seeded, accumulated, archery_after, archery_of;
      rewrite ?Ha, ?sum_column_cons;
      cbn [Summary.archery_data Summary.total_harvest
           Summary.total_hunters Summary.total_hunter_days];
      f_equal; f_equal;
      try (destruct (last _); reflexivity); try reflexivity; lia.
Qed.

Lemma scan_rows_from_init (rows : list (list (list str))) :
  Summary.scan_rows Summary.scan_init rows =
    Ok {| Summary.archery_data :=
            archery_of <$> last (List.filter is_summary_archery rows);
          Summary.total_harvest :=
            from_option (fun cells => parse_int_value (cell_text cells 3)) 0
              (last (List.filter is_summary_totals rows));
          Summary.total_hunters :=
            sum_column 9 (List.filter is_summary_method rows);
          Summary.total_hunter_days :=
            sum_column 11 (List.filter is_summary_method rows) |}.
Proof.
  rewrite scan_rows_summary. simpl.
  destruct (last (List.filter is_summary_archery rows));
    destruct (last (List.filter is_summary_totals rows)); reflexivity.
Qed.

(** X10. The totals of the summary scan, read off the rows of the table.
    Among the rows of at least 13 cells whose first cell does not contain
    method: the hunters and the hunter-days are the sums of columns 9 and 11
    over the rows without total in the first cell; the harvest is column 3
    of the last row with total in the first cell, and 0 when there is none;
    the archery fields are those of the last row with archery in the first
    cell. *)
Theorem X10_scan_totals (rows : list (list (list str))) :
  Summary.scan_rows Summary.scan_init rows =
    Ok {| Summary.archery_data :=
            archery_of <$> last (List.filter is_summary_archery rows);
          Summary.total_harvest :=
            from_option (fun cells => parse_int_value (cell_text cells 3)) 0
              (last (List.filter is_summary_totals rows));
          Summary.total_hunters :=
            sum_column 9 (List.filter is_summary_method rows);
          Summary.total_hunter_days :=
            sum_column 11 (List.filter is_summary_method rows) |}.
Proof. apply scan_rows_from_init. Qed.

End Rows.


(** ** Whole pages *)

Section Pages.

Lemma sum_column_perm i (l l' : list (list (list str))) :
  Permutation l l' -> sum_column i l = sum_column i l'.
Proof.
  induction 1; rewrite ?sum_column_cons; lia.
Qed.

Lemma filter_perm {A} (f : A -> bool) (l l' : list A) :
  Permutation l l' -> Permutation (List.filter f l) (List.filter f l').
Proof.
  induction 1; simpl.
  - constructor.
  - destruct (f x); [constructor|]; assumption.
  - destruct (f x), (f y); try constructor; try reflexivity.
  - etransitivity; eassumption.
Qed.

(** X11. The hunters and hunter-days totals of the summary scan do not
    depend on the order of the rows of the table. *)
Theorem X11_totals_order_independent (rows rows' : list (list (list str)))
    (st st' : Summary.scan) :
  Permutation rows rows' ->
  Summary.scan_rows Summary.scan_init rows = Ok st ->
  Summary.scan_rows Summary.scan_init rows' = Ok st' ->
  Summary.total_hunters st = Summary.total_hunters st' /\
  Summary.total_hunter_days st = Summary.total_hunter_days st'.
Proof.
  intros Hp. rewrite !scan_rows_from_init.
  intros [= <-] [= <-]. simpl.
  split; apply sum_column_perm, filter_perm, Hp.
Qed.

Lemma X11_totals_order_independent_witness :
  Summary.total_hunters sample_scan = 200.
Proof.
  refine (proj1 (X11_totals_order_independent sample_rows (rev sample_rows)
                   sample_scan
                   {| Summary.archery_data := Summary.archery_data sample_scan;
                      Summary.total_harvest := 50;
                      Summary.total_hunters := 200;
                      Summary.total_hunter_days := 1000 |} _ _ _)).
  - apply Permutation_rev.
  - vm_compute. reflexivity.
  - vm_compute. reflexivity.
Defined.





Lemma normalize_method_lower m :
  lower m <> py "method" -> lower m <> py "totals" ->
  lower (normalize_method m) <> py "method" /\
  lower (normalize_method m) <> py "totals" /\
  lower (normalize_method m) <> py "modern firearms".
Proof.
  intros H1 H2. unfold normalize_method.
  destruct (str_eqb (lower m) (py "modern firearms")) eqn:E.
  - repeat split; vm_compute; discriminate.
  - apply str_eqb_false in E. auto.
Qed.

(** Every record of a page is the record of a data row of one of its
    tables. *)
Lemma scrape_year_forall (P : dict -> Prop) (year : Z) (doc : document) :
  (forall district gmu_number gmu_name cells,
     (13 <= length cells)%nat ->
     first_cell_lower cells <> py "method" ->
     first_cell_lower cells <> py "totals" ->
     P (AllYears.method_record year district gmu_number gmu_name
          (map get_text cells))) ->
  Forall P (AllYears.scrape_year year doc).
Proof.
  intros HP. unfold AllYears.scrape_year.
  generalize (AllYears.walk 0 doc AllYears.walk_init) as w.
  generalize 0%nat as i.
  induction doc as [|e doc IH]; intros i w; cbn [AllYears.tables_loop].
  - constructor.
  - apply Forall_app. split; [|apply IH].
    unfold AllYears.table_records.
    destruct e as [lvl strings | caption rows]; [constructor|].
    destruct (AllYears.gmu_map w !! i) as [[gmu_number gmu_name]|];
      [|constructor].
    apply parse_gmu_table_forall. apply HP.
Qed.

Lemma scrape_year_ok (year : Z) (doc : document) :
  Forall (method_record_ok year) (AllYears.scrape_year year doc).
Proof.
  apply scrape_year_forall. intros district gmu_number gmu_name cells _ H1 H2.
  split; [reflexivity|]. split; [reflexivity|].
  eexists. split; [reflexivity|].
  apply normalize_method_lower; assumption.
Qed.

Lemma scrape_year_in_schema (year : Z) (doc : document) :
  Forall (in_schema AllYears.fieldnames) (AllYears.scrape_year year doc).
Proof.
  apply scrape_year_forall. intros. split; reflexivity.
Qed.

(** X13. Every record [scrape_year] returns fits the schema of the file:
    its keys are the 17 field names in their order, its year is the year
    of the page, and its method is never a header or totals label nor an
    unnormalised modern firearms. *)
Theorem X13_method_records_schema (year : Z) (doc : document) :
  Forall (method_record_ok year) (AllYears.scrape_year year doc).
Proof. apply scrape_year_ok. Qed.

End Pages.


(** ** The range of the quotient *)

Section QuotientRange.














End QuotientRange.


(** ** The run over the years *)

Section Years.
Import AllYearsFile.

Lemma method_record_ok_year year r :
  method_record_ok year r -> year_of r = Some year.
Proof. intros (_ & Hy & _). unfold year_of. rewrite Hy. reflexivity. Qed.

Lemma scrape_year_years year doc :
  Forall (fun r => year_of r = Some year) (AllYears.scrape_year year doc).
Proof.
  eapply Forall_impl; [apply scrape_year_ok|].
  intros r. apply method_record_ok_year.
Qed.

Lemma page_records_years pages year :
  Forall (fun r => year_of r = Some year)
    match pages year with
    | Some doc => AllYears.scrape_year year doc
    | None => []
    end.
Proof. destruct (pages year); [apply scrape_year_years|constructor]. Qed.

Lemma filter_all {A} (f : A -> bool) (l : list A) :
  Forall (fun x => f x = true) l -> List.filter f l = l.
Proof.
  induction 1 as [|x l Hx _ IH]; simpl; [reflexivity|].
  rewrite Hx, IH. reflexivity.
Qed.

Lemma filter_none {A} (f : A -> bool) (l : list A) :
  Forall (fun x => f x = false) l -> List.filter f l = [].
Proof.
  induction 1 as [|x l Hx _ IH]; simpl; [reflexivity|].
  rewrite Hx, IH. reflexivity.
Qed.

Lemma all_data_without pages y ys :
  all_data_of (without_year pages y) ys =
  List.filter (fun r => negb (bool_decide (year_of r = Some y)))
    (all_data_of pages ys).
Proof.
  unfold all_data_of.
  induction ys as [|year ys IH]; simpl; [reflexivity|].
  rewrite List.filter_app, <- IH. f_equal.
  unfold without_year.
  pose proof (page_records_years pages year) as Hy.
  destruct (Z.eqb_spec year y) as [->|Hne].
  - symmetry. apply filter_none.
    eapply Forall_impl; [exact Hy|]. intros r Hr. simpl.
    rewrite bool_decide_eq_true_2 by exact Hr. reflexivity.
  - symmetry. apply filter_all.
    eapply Forall_impl; [exact Hy|]. intros r Hr. simpl.
    rewrite bool_decide_eq_false_2; [reflexivity|].
    rewrite Hr. intros [= ?]. contradiction.
Qed.

(** X15. A year whose page cannot be fetched costs exactly its own
    records: the data gathered without that year is the data gathered with
    it, less the records stamped with that year, in the same order. *)
Theorem X15_failed_year_is_isolated (pages : Z -> option document) (y : Z) :
  all_data (without_year pages y) =
  List.filter (fun r => negb (bool_decide (year_of r = Some y)))
    (all_data pages).
Proof. apply all_data_without. Qed.

Lemma all_data_sorted pages (ys : list Z) :
  StronglySorted Z.lt ys ->
  exists stamps,
    map year_of (all_data_of pages ys) = map Some stamps /\
    StronglySorted Z.le stamps /\
    Forall (fun y => y ∈ ys) stamps.
Proof.
  induction 1 as [|year ys Hs IH Hlt].
  - exists []. repeat split; constructor.
  - destruct IH as (stamps & Hmap & Hsorted & Hin).
    unfold all_data_of. cbn [flat_map]. fold (all_data_of pages ys).
    pose proof (page_records_years pages year) as Hy.
    set (block := match pages year with
                  | Some doc => AllYears.scrape_year year doc
                  | None => []
                  end) in *.
    exists (repeat year (length block) ++ stamps).
    rewrite map_app, Hmap, map_app. split; [|split].
    + f_equal. clearbody block.
      induction Hy as [|r block Hr _ IHb]; simpl; [reflexivity|].
      rewrite Hr, IHb. reflexivity.
    + clear Hy. induction (length block) as [|n IHn]; simpl; [exact Hsorted|].
      constructor; [exact IHn|].
      apply Forall_app. split.
      * apply Forall_forall. intros z Hz. apply list_elem_of_In in Hz.
        apply repeat_spec in Hz. lia.
      * apply Forall_forall. intros z Hz.
        rewrite Forall_forall in Hin. specialize (Hin z Hz).
        rewrite Forall_forall in Hlt. specialize (Hlt z Hin). lia.
    + apply Forall_app. split.
      * apply Forall_forall. intros z Hz. apply list_elem_of_In in Hz.
        apply repeat_spec in Hz. subst z. left.
      * eapply Forall_impl; [exact Hin|]. intros z Hz. right. exact Hz.
Qed.

(** X16. The data handed to [write_csv] is in ascending order of year, and
    every record is stamped with a year from 2013 to 2024. *)
Theorem X16_all_data_ordered_by_year (pages : Z -> option document) :
  exists stamps,
    map year_of (all_data pages) = map Some stamps /\
    StronglySorted Z.le stamps /\
    Forall (fun y => 2013 <= y <= 2024) stamps.
Proof.
  destruct (all_data_sorted pages years) as (stamps & Hmap & Hs & Hin).
  - unfold years. simpl. repeat constructor; lia.
  - exists stamps. split; [exact Hmap|]. split; [exact Hs|].
    eapply Forall_impl; [exact Hin|]. intros y Hy.
    unfold years in Hy. apply list_elem_of_In, in_map_iff in Hy as (n & <- & Hn).
    apply in_seq in Hn. lia.
Qed.

End Years.


(** ** The file *)

Section CsvFile.

Lemma field_end_special c : field_end c -> csv_special c = true /\ c <> quote_char.
Proof. intros [-> | ->]; split; vm_compute; congruence. Qed.

Lemma quote_special : csv_special quote_char = true.
Proof. reflexivity. Qed.

(** Two unquoted fields that continue with a field end are told apart. *)
Lemma plain_prefix_free f g c c' x y :
  existsb csv_special f = false -> existsb csv_special g = false ->
  csv_special c = true -> csv_special c' = true ->
  f ++ c :: x = g ++ c' :: y -> f = g /\ c = c' /\ x = y.
Proof.
  revert g. induction f as [|a f IH]; intros g Hf Hg Hc Hc'; simpl.
  - destruct g as [|b g]; simpl.
    + intros [= -> ->]. auto.
    + intros [= -> _]. simpl in Hg. rewrite Hc in Hg. discriminate.
  - simpl in Hf. apply orb_false_iff in Hf as [Ha Hf].
    destruct g as [|b g]; simpl.
    + intros [= -> _]. rewrite Hc' in Ha. discriminate.
    + simpl in Hg. apply orb_false_iff in Hg as [_ Hg].
      intros [= -> H]. destruct (IH g Hf Hg Hc Hc' H) as (-> & -> & ->). auto.
Qed.

(** Two quoted bodies that continue with the closing quote and a character
    other than a quote are told apart. *)
Lemma escape_prefix_free f g c c' x y :
  c <> quote_char -> c' <> quote_char ->
  csv_escape f ++ quote_char :: c :: x = csv_escape g ++ quote_char :: c' :: y ->
  f = g /\ c = c' /\ x = y.
Proof.
  intros Hc Hc'. revert g.
  induction f as [|a f IH]; intros g; simpl.
  - destruct g as [|b g]; simpl.
    + intros [= -> ->]. auto.
    + destruct (N.eqb_spec b quote_char) as [->|Hb]; simpl.
      * intros [= H _]. congruence.
      * intros [= H _]. congruence.
  - destruct (N.eqb_spec a quote_char) as [->|Ha]; simpl.
    + destruct g as [|b g]; simpl.
      * intros [= H _]. congruence.
      * destruct (N.eqb_spec b quote_char) as [->|Hb]; simpl.
        -- intros [= H]. destruct (IH g H) as (-> & -> & ->). auto.
        -- intros [= H _]. congruence.
    + destruct g as [|b g]; simpl.
      * intros [= H _]. congruence.
      * destruct (N.eqb_spec b quote_char) as [->|Hb]; simpl.
        -- intros [= H _]. congruence.
        -- intros [= -> H]. destruct (IH g H) as (-> & -> & ->). auto.
Qed.

(** A code is either plain, without special character, or quoted. *)
Lemma field_code_shape f code :
  field_code f code ->
  (code = f /\ existsb csv_special f = false) \/
  code = quote_char :: csv_escape f ++ [quote_char].
Proof.
  unfold field_code, csv_field. intros [-> | [-> ->]].
  - destruct (existsb csv_special f); auto.
  - right. reflexivity.
Qed.

(** The codes of fields are prefix free: what follows a field is read
    after it, whichever field it is. *)
Lemma field_code_prefix_free f g cf cg c c' x y :
  field_code f cf -> field_code g cg -> field_end c -> field_end c' ->
  cf ++ c :: x = cg ++ c' :: y -> f = g /\ c = c' /\ x = y.
Proof.
  intros Hf Hg Hc Hc'.
  destruct (field_end_special c Hc) as [Hsc Hqc].
  destruct (field_end_special c' Hc') as [Hsc' Hqc'].
  destruct (field_code_shape f cf Hf) as [[-> Hpf] | ->];
    destruct (field_code_shape g cg Hg) as [[-> Hpg] | ->].
  - apply plain_prefix_free; assumption.
  - destruct f as [|a f]; simpl.
    + intros [= -> _]. congruence.
    + intros [= -> _]. simpl in Hpf. discriminate.
  - destruct g as [|b g]; simpl.
    + intros [= <- _]. congruence.
    + intros [= <- _]. simpl in Hpg. discriminate.
  - simpl. rewrite <- !app_assoc. simpl. intros [= H].
    apply escape_prefix_free; assumption.
Qed.

(** A line is the codes of its fields, a comma between two of them, then
    carriage return and line feed. *)
Lemma csv_line_codes fields :
  fields <> [] ->
  exists codes, Forall2 field_code fields codes /\
                csv_line fields = csv_join codes ++ [13; 10]%N.
Proof.
  intros Hne.
  destruct fields as [|f [|f' fields]]; [contradiction| |].
  - destruct f as [|a f].
    + exists [[quote_char; quote_char]]. split; [|reflexivity].
      constructor; [right; auto|constructor].
    + exists [csv_field (a :: f)]. split; [|reflexivity].
      constructor; [left; reflexivity|constructor].
  - exists (map csv_field (f :: f' :: fields)). split.
    + apply Forall2_fmap_r. apply Forall_Forall2_diag.
      apply Forall_forall. intros z _. left. reflexivity.
    + destruct f; reflexivity.
Qed.

Lemma codes_prefix_free fields : forall codes fields' codes' x y,
  Forall2 field_code fields codes -> Forall2 field_code fields' codes' ->
  fields <> [] -> fields' <> [] ->
  csv_join codes ++ 13%N :: x = csv_join codes' ++ 13%N :: y ->
  fields = fields' /\ x = y.
Proof.
  induction fields as [|f fields IH]; intros codes fields' codes' x y Hc Hc' Hne Hne';
    [contradiction|].
  destruct fields' as [|f' fields']; [contradiction|].
  inversion Hc as [|? cf ? codes1 Hf Hrest]; subst.
  inversion Hc' as [|? cf' ? codes1' Hf' Hrest']; subst.
  destruct codes1 as [|c2 codes1]; destruct codes1' as [|c2' codes1'];
    cbn [csv_join]; rewrite <- ?app_assoc; cbn [app].
  - intros H.
    destruct (field_code_prefix_free _ _ _ _ _ _ _ _ Hf Hf'
                (or_intror eq_refl) (or_intror eq_refl) H) as (-> & _ & ->).
    inversion Hrest; inversion Hrest'; subst. auto.
  - intros H.
    destruct (field_code_prefix_free _ _ _ _ _ _ _ _ Hf Hf'
                (or_intror eq_refl) (or_introl eq_refl) H) as (_ & Habs & _).
    discriminate Habs.
  - intros H.
    destruct (field_code_prefix_free _ _ _ _ _ _ _ _ Hf Hf'
                (or_introl eq_refl) (or_intror eq_refl) H) as (_ & Habs & _).
    discriminate Habs.
  - intros H.
    destruct (field_code_prefix_free _ _ _ _ _ _ _ _ Hf Hf'
                (or_introl eq_refl) (or_introl eq_refl) H) as (-> & _ & H').
    destruct (IH (c2 :: codes1) fields' (c2' :: codes1') x y Hrest Hrest')
      as [-> ->]; auto.
    + intros ->. inversion Hrest.
    + intros ->. inversion Hrest'.
Qed.

(** What follows a line is read after it: lines are prefix free. *)
Lemma csv_line_prefix_free fields fields' x y :
  fields <> [] -> fields' <> [] ->
  csv_line fields ++ x = csv_line fields' ++ y ->
  fields = fields' /\ x = y.
Proof.
  intros Hne Hne'.
  destruct (csv_line_codes fields Hne) as (codes & Hc & ->).
  destruct (csv_line_codes fields' Hne') as (codes' & Hc' & ->).
  rewrite <- !app_assoc. cbn [app]. intros H.
  destruct (codes_prefix_free _ _ _ _ _ _ Hc Hc' Hne Hne' H) as [-> [= ->]].
  auto.
Qed.

Lemma csv_lines_injective rows : forall rows',
  Forall (fun fields => fields <> []) rows ->
  Forall (fun fields => fields <> []) rows' ->
  concat (map csv_line rows) = concat (map csv_line rows') ->
  rows = rows'.
Proof.
  assert (Hnonempty : forall fields x, csv_line fields ++ x <> []).
  { intros fields x.
    assert (Hend : exists body, csv_line fields = body ++ [13; 10]%N).
    { unfold csv_line. destruct fields as [|[|] [|]]; eauto.
      exists [quote_char; quote_char]. reflexivity. }
    destruct Hend as [body ->]. rewrite <- app_assoc.
    intros H. apply app_eq_nil in H as [_ H]. discriminate. }
  induction rows as [|r rows IH]; intros rows' Hr Hr'.
  - destruct rows' as [|r' rows']; [reflexivity|]. simpl. intros H.
    symmetry in H. apply Hnonempty in H. contradiction.
  - destruct rows' as [|r' rows']; simpl.
    + intros H. apply Hnonempty in H. contradiction.
    + apply Forall_cons in Hr as [Hr1 Hr2].
      apply Forall_cons in Hr' as [Hr1' Hr2'].
      intros H.
      destruct (csv_line_prefix_free _ _ _ _ Hr1 Hr1' H) as [-> H'].
      f_equal. apply IH; assumption.
Qed.

End CsvFile.

Section WriteCsv.

Lemma keys_check (fieldnames : list string) :
  forallb (fun k => existsb (String.eqb k) fieldnames) fieldnames = true.
Proof.
  apply forallb_forall. intros k Hk. apply existsb_exists.
  exists k. split; [exact Hk|apply String.eqb_refl].
Qed.

(** When nothing is raised, the rows are written one line each. *)
Lemma writerows_lines fieldnames data content :
  writerows fieldnames data = Ok content ->
  content = concat (map csv_line (map (row_texts fieldnames) data)).
Proof.
  revert content. induction data as [|r data IH]; intros content; simpl.
  - intros [= <-]. reflexivity.
  - unfold dict_to_list. destruct (forallb _ _); [|discriminate]. simpl.
    destruct (writerows fieldnames data) as [rest|]; [|discriminate]. simpl.
    intros [= <-]. f_equal. apply IH. reflexivity.
Qed.

(** Records that fit the schema are written, and nothing is raised. *)
Lemma writerows_in_schema fieldnames data :
  Forall (in_schema fieldnames) data ->
  writerows fieldnames data = Ok (record_lines data).
Proof.
  induction 1 as [|r data [Hk Ht] _ IH]; simpl; [reflexivity|].
  unfold dict_to_list. rewrite Hk, keys_check. simpl.
  rewrite IH. simpl. unfold record_lines. simpl.
  rewrite <- Ht. reflexivity.
Qed.

Lemma write_csv_in_schema fieldnames data :
  Forall (in_schema fieldnames) data ->
  write_csv_with fieldnames data =
    Ok (header_line fieldnames ++ record_lines data).
Proof.
  intros H. unfold write_csv_with. rewrite (writerows_in_schema _ _ H).
  reflexivity.
Qed.

Lemma all_data_in_schema pages ys :
  Forall (in_schema AllYears.fieldnames) (AllYearsFile.all_data_of pages ys).
Proof.
  unfold AllYearsFile.all_data_of.
  induction ys as [|year ys IH]; simpl; [constructor|].
  apply Forall_app. split; [|exact IH].
  destruct (pages year); [apply scrape_year_in_schema|constructor].
Qed.

(** X17. After the pages are fetched, the run over the years raises
    nothing: every record has exactly the keys the writer expects. When no
    page yields a record no file is written; otherwise the text of the
    file is the header line with the 17 field names followed by one line
    for every record, in order, holding the values of the record in the
    order of the schema. *)
Theorem X17_all_years_file (pages : Z -> option document) :
  AllYearsFile.main pages =
    Ok (if dict_list_truthy (AllYearsFile.all_data pages)
        then Some (header_line AllYears.fieldnames ++
                   record_lines (AllYearsFile.all_data pages))
        else None) /\
  header_line AllYears.fieldnames =
    py "year,district,gmu_number,gmu_name,method,antlerless_harvest,antlered_harvest,total_harvest,points_1,points_2,points_3,points_4,points_5_plus,num_hunters,hunter_success_rate,hunter_days,days_per_kill"
    ++ [13; 10]%N.
Proof.
  split; [|vm_compute; reflexivity].
  unfold AllYearsFile.main.
  destruct (dict_list_truthy (AllYearsFile.all_data pages)); [|reflexivity].
  unfold AllYearsFile.write_csv.
  rewrite write_csv_in_schema by apply all_data_in_schema.
  reflexivity.
Qed.


(** X19. The file determines what was written: two lists of records that
    give the same file have the same field texts, row by row. Quoting
    keeps a comma, a quote or a line break inside a cell apart from the
    separators. *)
Theorem X19_file_determines_rows (fieldnames : list string)
    (data data' : list dict) (content : str) :
  fieldnames <> [] ->
  write_csv_with fieldnames data = Ok content ->
  write_csv_with fieldnames data' = Ok content ->
  map (row_texts fieldnames) data = map (row_texts fieldnames) data'.
Proof.
  intros Hne. unfold write_csv_with.
  destruct (writerows fieldnames data) as [rows|] eqn:Hrows; [|discriminate].
  destruct (writerows fieldnames data') as [rows'|] eqn:Hrows'; [|discriminate].
  simpl. intros [= <-] [= H]. apply app_inv_head in H. subst rows'.
  apply writerows_lines in Hrows, Hrows'. rewrite Hrows in Hrows'.
  assert (Hrow : forall d : list dict,
            Forall (fun fields : list str => fields <> [])
              (map (row_texts fieldnames) d)).
  { intros d. apply Forall_forall. intros fields Hin.
    apply list_elem_of_In, in_map_iff in Hin as (r & <- & _).
    unfold row_texts. destruct fieldnames; [contradiction|discriminate]. }
  apply csv_lines_injective; auto.
Qed.

Lemma X19_file_determines_rows_witness :
  map (row_texts Summary.fieldnames)
    [Summary.gmu_record (Some (py "1")) (py "101") (py "SHERMAN") sample_scan
       (py "25%") (py "20")]
  = map (row_texts Summary.fieldnames)
      [rev (Summary.gmu_record (Some (py "1")) (py "101") (py "SHERMAN")
              sample_scan (py "25%") (py "20"))].
Proof.
  refine (X19_file_determines_rows Summary.fieldnames _ _
            (header_line Summary.fieldnames ++
             record_lines
               [Summary.gmu_record (Some (py "1")) (py "101") (py "SHERMAN")
                  sample_scan (py "25%") (py "20")]) _ _ _).
  - discriminate.
  - vm_compute. reflexivity.
  - vm_compute. reflexivity.
Defined.

End WriteCsv.
